(** * udonarium2fvttjson: the Udonarium XML to FVTT JSON converter

    A shallow embedding of [udonarium_fvtt_converter.py] and the properties
    of its field mapping.

    Layout: Python strings and the built-ins the converter calls on them,
    the lxml element tree and the ElementPath selectors, the destination
    record, the converter's functions, then the theorems. *)

From Stdlib Require Import ZArith NArith String Ascii List DecimalString.
From stdpp Require Import base option list gmap.

Local Open Scope Z_scope.

(** ** Python strings

    A Python [str] is a sequence of Unicode code points. *)

Module PyStr.

Abbreviation str := (list N).

(** Literals are written as UTF-8 text and decoded. *)
Fixpoint utf8_decode (bs : list N) : list N :=
  match bs with
  | [] => []
  | b0 :: r0 =>
    if (b0 <? 128)%N then b0 :: utf8_decode r0
    else match r0 with
    | [] => []
    | b1 :: r1 =>
      if (b0 <? 224)%N then
        ((b0 - 192) * 64 + (b1 - 128))%N :: utf8_decode r1
      else match r1 with
      | [] => []
      | b2 :: r2 =>
        if (b0 <? 240)%N then
          ((b0 - 224) * 4096 + (b1 - 128) * 64 + (b2 - 128))%N
            :: utf8_decode r2
        else match r2 with
        | [] => []
        | b3 :: r3 =>
          ((b0 - 240) * 262144 + (b1 - 128) * 4096
             + (b2 - 128) * 64 + (b3 - 128))%N :: utf8_decode r3
        end
      end
    end
  end.

Definition py (s : string) : list N :=
  utf8_decode (map N_of_ascii (list_ascii_of_string s)).
Arguments py : simpl never.

(** [Py_UNICODE_ISSPACE]: the characters [str.strip()] removes. *)
Definition isspace (c : N) : bool :=
  ((9 <=? c) && (c <=? 13) || (28 <=? c) && (c <=? 32)
   || (c =? 133) || (c =? 160) || (c =? 5760)
   || (8192 <=? c) && (c <=? 8202)
   || (c =? 8232) || (c =? 8233) || (c =? 8239) || (c =? 8287)
   || (c =? 12288))%N.

Fixpoint lstrip (s : list N) : list N :=
  match s with
  | c :: s' => if isspace c then lstrip s' else s
  | [] => []
  end.

Definition rstrip (s : list N) : list N := rev (lstrip (rev s)).

(** [s.strip()] *)
Definition strip (s : list N) : list N := rstrip (lstrip s).

Fixpoint startswith (p s : list N) : bool :=
  match p, s with
  | [], _ => true
  | a :: p', b :: s' => (a =? b)%N && startswith p' s'
  | _ :: _, [] => false
  end.

Fixpoint replace_from (old new : list N) (skip : nat) (s : list N) : list N :=
  match s with
  | [] => []
  | c :: s' =>
    match skip with
    | S k => replace_from old new k s'
    | O =>
      if startswith old s
      then new ++ replace_from old new (length old - 1) s'
      else c :: replace_from old new O s'
    end
  end.

(** [s.replace(old, new)] for a non-empty [old]: every occurrence, leftmost
    first and not overlapping. *)
Definition replace (old new s : list N) : list N := replace_from old new O s.

(** [sep.join(parts)] *)
Fixpoint join (sep : list N) (parts : list (list N)) : list N :=
  match parts with
  | [] => []
  | [p] => p
  | p :: rest => p ++ sep ++ join sep rest
  end.

(** The string holding a line feed. *)
Definition newline : list N := [10%N].

(** Truth value of a string, and of a string that may be [None]. *)
Definition truthy (s : list N) : bool :=
  match s with [] => false | _ :: _ => true end.

Definition truthy_opt (o : option (list N)) : bool :=
  match o with Some s => truthy s | None => false end.

(** [str(n)] for an integer. *)
Definition str_of_Z (n : Z) : list N :=
  py (NilZero.string_of_int (Z.to_int n)).

End PyStr.
Import PyStr.

(** ** Exceptions

    Code that can raise returns a [result]; [x ← m; k] sequences two steps and
    stops at the first exception. *)

Inductive exn :=
  | XMLSyntaxError
  | UnicodeEncodeError
  | ValueError
  | AttributeError
  | KeyError
  | TypeError.

Global Instance exn_eq_dec : EqDecision exn.
Proof. solve_decision. Defined.

Inductive result (A : Type) :=
  | Ok (a : A)
  | Raise (e : exn).
Arguments Ok {A} a.
Arguments Raise {A} e.

Global Instance result_ret : MRet result := fun _ a => Ok a.
Global Instance result_bind : MBind result := fun _ _ f m =>
  match m with
  | Ok a => f a
  | Raise e => Raise e
  end.

(** [try: body except (catches): handler] *)
Definition try_except {A} (body : result A) (catches : list exn)
    (handler : result A) : result A :=
  match body with
  | Ok a => Ok a
  | Raise e => if bool_decide (e ∈ catches) then handler else Raise e
  end.

(** [for x in xs: body], threading the mutated object. *)
Fixpoint for_each {A S} (xs : list A) (body : A -> S -> result S) (s : S)
    : result S :=
  match xs with
  | [] => Ok s
  | x :: xs' => s' ← body x s; for_each xs' body s'
  end.

(** ** The runtime's tables

    [int()] accepts every character with the Unicode decimal-digit property.
    Outside ASCII that property is a table of the interpreter's Unicode
    database; it is a parameter here. *)

Class UnicodeData := { unicode_decimal : N -> option N }.

Module PyInt.

(** [Py_ISSPACE], the whitespace [PyLong_FromString] skips. *)
Definition c_isspace (c : N) : bool :=
  ((c =? 32) || (9 <=? c) && (c <=? 13))%N.

(** [_PyUnicode_TransformDecimalAndSpaceToASCII]: [None] stands for the
    [?] written for a character that is neither a space nor a digit. *)
Definition to_ascii `{UnicodeData} (c : N) : option N :=
  if (c <? 127)%N then Some c
  else if isspace c then Some 32%N
  else match unicode_decimal c with
       | Some d => Some (48 + d)%N
       | None => None
       end.

Fixpoint transform `{UnicodeData} (s : list N) : option (list N) :=
  match s with
  | [] => Some []
  | c :: s' =>
    match to_ascii c with
    | Some a => match transform s' with
                | Some t => Some (a :: t)
                | None => None
                end
    | None => None
    end
  end.

Definition digit_val (c : N) : option Z :=
  if ((48 <=? c) && (c <=? 57))%N then Some (Z.of_N c - 48) else None.

Definition underscore : N := 95.

(** The digit loop of [long_from_string_base]: the value, the number of
    digits and the unread rest; [None] on a doubled or trailing
    underscore. *)
Fixpoint scan (prev_underscore : bool) (acc : Z) (digits : nat)
    (t : list N) : option (Z * nat * list N) :=
  match t with
  | c :: t' =>
    if (c =? underscore)%N then
      if prev_underscore then None else scan true acc digits t'
    else match digit_val c with
         | Some d => scan false (acc * 10 + d) (S digits) t'
         | None => if prev_underscore then None else Some (acc, digits, t)
         end
  | [] => if prev_underscore then None else Some (acc, digits, t)
  end.

(** [sys.get_int_max_str_digits()], at its default. *)
Definition max_str_digits : nat := 4300.

Fixpoint skip_space (t : list N) : list N :=
  match t with
  | c :: t' => if c_isspace c then skip_space t' else t
  | [] => []
  end.

(** [PyLong_FromString(t, base=10)] on the transformed text. *)
Definition from_string (t : list N) : result Z :=
  let t1 := skip_space t in
  let '(negative, t2) :=
    match t1 with
    | 43%N :: r => (false, r)
    | 45%N :: r => (true, r)
    | _ => (false, t1)
    end in
  match t2 with
  | [] => Raise ValueError
  | c :: _ =>
    if (c =? underscore)%N then Raise ValueError
    else match scan false 0 O t2 with
         | None => Raise ValueError
         | Some (n, digits, rest) =>
           match digits, skip_space rest with
           | S _, [] =>
             if (max_str_digits <? digits)%nat then Raise ValueError
             else Ok (if negative then - n else n)
           | _, _ => Raise ValueError
           end
         end
  end.

(** [int(s)] for a string [s]. *)
Definition int `{UnicodeData} (s : list N) : result Z :=
  match transform s with
  | Some t => from_string t
  | None => Raise ValueError
  end.

End PyInt.

(** [s.encode("utf-8")]: lone surrogates cannot be encoded. *)
Definition encode_char (c : N) : result (list N) :=
  (if c <? 128 then Ok [c]
   else if c <? 2048 then Ok [192 + c / 64; 128 + c mod 64]
   else if (55296 <=? c) && (c <=? 57343) then Raise UnicodeEncodeError
   else if c <? 65536 then
     Ok [224 + c / 4096; 128 + (c / 64) mod 64; 128 + c mod 64]
   else
     Ok [240 + c / 262144; 128 + (c / 4096) mod 64;
         128 + (c / 64) mod 64; 128 + c mod 64])%N.

Fixpoint encode_utf8 (s : list N) : result (list N) :=
  match s with
  | [] => Ok []
  | c :: s' => b ← encode_char c; bs ← encode_utf8 s'; Ok (b ++ bs)
  end.

(** ** The source document: lxml's element tree

    An element has a tag, attributes, the text before its first child and
    its children.  Comments and processing instructions never match a tag
    name and the converter selects by tag only, so they are left out; what
    they change, the extent of [text], is a field of the element.  The
    converter never reads [tail]. *)

#[local] Set Warnings "-register-all".

Inductive Element := mkElement {
  tag : list N;
  attrib : gmap (list N) (list N);
  text : option (list N);
  children : list Element
}.

(** [elem.get(key)], for a key that is an attribute name (lxml refuses a
    key that is not one, the empty string for instance, with [ValueError];
    the converter passes the literals [name] and [currentValue]). *)
Definition get (elem : Element) (key : list N) : option (list N) :=
  attrib elem !! key.

(** [elem.get(key, default)] *)
Definition get_default (elem : Element) (key default : list N) : list N :=
  match get elem key with
  | Some v => v
  | None => default
  end.

(** All descendants in document order, the element itself left out. *)
Fixpoint descendants (e : Element) : list Element :=
  match e with
  | mkElement _ _ _ cs =>
    (fix go (l : list Element) : list Element :=
       match l with
       | [] => []
       | c :: l' => c :: descendants c ++ go l'
       end) cs
  end.

Definition has_tag (t : list N) (e : Element) : bool :=
  bool_decide (tag e = t).

Definition iterchildren (t : list N) (e : Element) : list Element :=
  List.filter (has_tag t) (children e).

Definition iterdescendants (t : list N) (e : Element) : list Element :=
  List.filter (has_tag t) (descendants e).

(** ElementPath, as lxml's [_elementpath] compiles it: a path is a list of
    selectors, each mapping the stream of elements found so far. *)
Inductive selector :=
  | Self                               (* .           *)
  | Descendant (t : list N)            (* //tag       *)
  | Child (t : list N)                 (* /tag, tag   *)
  | AttrEq (key value : list N).       (* [@key='v']  *)

Definition select (sel : selector) (found : list Element) : list Element :=
  match sel with
  | Self => found
  | Descendant t => flat_map (iterdescendants t) found
  | Child t => flat_map (iterchildren t) found
  | AttrEq k v => List.filter (fun e => bool_decide (get e k = Some v)) found
  end.

Definition iterfind (path : list selector) (elem : Element) : list Element :=
  fold_left (fun found sel => select sel found) path [elem].

(** [elem.findall(path)] *)
Definition findall (path : list selector) (elem : Element) : list Element :=
  iterfind path elem.

(** [elem.find(path)]: the first match or [None]. *)
Definition find (path : list selector) (elem : Element) : option Element :=
  head (iterfind path elem).

(** The XML parser, [etree.fromstring] on bytes, is lxml's. *)
Class XMLParser := { fromstring : list N -> result Element }.


(** ** The destination record

    Dictionaries written with literal keys are records; those built by a
    comprehension or assigned through a computed key are finite maps, where
    a subscript with a missing key raises [KeyError]. *)

(** [{"value": v}] *)
Record boxed (A : Type) := Box { value : A }.
Arguments Box {A} value.
Arguments value {A} b.

(** [{"value": v, "max": m}] *)
Record counter := Counter { counter_value : Z; counter_max : Z }.

(** A value of the [details] dictionary: a string, or the biography's
    [{"value": s}]. *)
Inductive detail :=
  | DText (s : list N)
  | DBoxed (b : boxed (list N)).

Record attributes_t := Attributes { hp : counter; hd : boxed (list N) }.

Record system_t := System {
  abilities : gmap (list N) (boxed Z);
  attributes : attributes_t;
  details : gmap (list N) detail;
  spells : gmap (list N) counter
}.

Record item_system_t := ItemSystem { description : boxed (list N) }.

(** An entry of [items]; [item_name] is what [elem.get("name")] returned. *)
Record item := Item {
  item_name : option (list N);
  item_type : list N;
  item_system : item_system_t
}.

Record json_data_t := JsonData {
  name : list N;
  type : list N;
  system : system_t;
  items : list item
}.

Definition with_system (f : system_t -> system_t) (j : json_data_t)
    : json_data_t :=
  JsonData (name j) (type j) (f (system j)) (items j).

Definition with_name (s : list N) (j : json_data_t) : json_data_t :=
  JsonData s (type j) (system j) (items j).

Definition with_items (f : list item -> list item) (j : json_data_t)
    : json_data_t :=
  JsonData (name j) (type j) (system j) (f (items j)).

Definition with_abilities (f : gmap (list N) (boxed Z) -> gmap (list N) (boxed Z))
    (s : system_t) : system_t :=
  System (f (abilities s)) (attributes s) (details s) (spells s).

Definition with_attributes (f : attributes_t -> attributes_t) (s : system_t)
    : system_t :=
  System (abilities s) (f (attributes s)) (details s) (spells s).

Definition with_details (f : gmap (list N) detail -> gmap (list N) detail)
    (s : system_t) : system_t :=
  System (abilities s) (attributes s) (f (details s)) (spells s).

Definition with_spells (f : gmap (list N) counter -> gmap (list N) counter)
    (s : system_t) : system_t :=
  System (abilities s) (attributes s) (details s) (f (spells s)).

(** [json_data["system"]["abilities"][key]["value"] = v] *)
Definition set_ability_value (key : list N) (v : Z) (j : json_data_t)
    : result json_data_t :=
  match abilities (system j) !! key with
  | Some _ => Ok (with_system (with_abilities (insert key (Box v))) j)
  | None => Raise KeyError
  end.

(** [json_data["system"]["spells"][key]["value"] = v] *)
Definition set_spell_value (key : list N) (v : Z) (j : json_data_t)
    : result json_data_t :=
  match spells (system j) !! key with
  | Some c =>
    Ok (with_system (with_spells (insert key (Counter v (counter_max c)))) j)
  | None => Raise KeyError
  end.

(** [json_data["system"]["spells"][key]["max"] = v] *)
Definition set_spell_max (key : list N) (v : Z) (j : json_data_t)
    : result json_data_t :=
  match spells (system j) !! key with
  | Some c =>
    Ok (with_system (with_spells (insert key (Counter (counter_value c) v))) j)
  | None => Raise KeyError
  end.

(** [json_data["system"]["attributes"]["hp"]["value"] = v] *)
Definition set_hp_value (v : Z) (j : json_data_t) : json_data_t :=
  with_system (with_attributes (fun a =>
    Attributes (Counter v (counter_max (hp a))) (hd a))) j.

(** [json_data["system"]["attributes"]["hp"]["max"] = v] *)
Definition set_hp_max (v : Z) (j : json_data_t) : json_data_t :=
  with_system (with_attributes (fun a =>
    Attributes (Counter (counter_value (hp a)) v) (hd a))) j.

(** [json_data["system"]["attributes"]["hd"]["value"] = s] *)
Definition set_hd_value (s : list N) (j : json_data_t) : json_data_t :=
  with_system (with_attributes (fun a => Attributes (hp a) (Box s))) j.

(** [json_data["system"]["details"][key] = s] *)
Definition set_detail (key s : list N) (j : json_data_t) : json_data_t :=
  with_system (with_details (insert key (DText s))) j.

(** [json_data["system"]["details"]["biography"]["value"] = s] *)
Definition set_biography_value (s : list N) (j : json_data_t)
    : result json_data_t :=
  match details (system j) !! py "biography" with
  | Some (DBoxed _) =>
    Ok (with_system (with_details (insert (py "biography") (DBoxed (Box s)))) j)
  | Some (DText _) => Raise TypeError
  | None => Raise KeyError
  end.

(** ** The converter *)

(** [elem.text], where [elem] may be [None]. *)
Definition text_of (elem : option Element) : result (option (list N)) :=
  match elem with
  | Some e => Ok (text e)
  | None => Raise AttributeError
  end.

(** [value.strip()], where [value] may be [None]. *)
Definition str_strip (value : option (list N)) : result (list N) :=
  match value with
  | Some s => Ok (strip s)
  | None => Raise AttributeError
  end.

(** [f"{value}"] *)
Definition format (value : option (list N)) : list N :=
  match value with
  | Some s => s
  | None => py "None"
  end.

Definition get_text (elem : option Element) : result (list N) :=
  if match elem with
     | Some e => truthy_opt (text e)
     | None => false
     end
  then t ← text_of elem; str_strip t
  else Ok [].

Definition get_int_value `{UnicodeData} (elem : option Element)
    (attrib_name : list N) : result Z :=
  match elem with
  | None => Ok 0
  | Some e =>
    let value :=
      if negb (bool_decide (attrib_name = py "text"))
      then get e attrib_name
      else text e in
    try_except
      (if truthy_opt value then s ← str_strip value; PyInt.int s else Ok 0)
      [ValueError; AttributeError]
      (Ok 0)
  end.

Definition ability_mapping : gmap (list N) (list N) :=
  list_to_map [
    (py "筋力", py "str");
    (py "敏捷力", py "dex");
    (py "耐久力", py "con");
    (py "知力", py "int");
    (py "判断力", py "wis");
    (py "魅力", py "cha")
  ].

(** [".//data[@name='能力値']/data"] *)
Definition abilities_path : list selector :=
  [Self; Descendant (py "data"); AttrEq (py "name") (py "能力値");
   Child (py "data")].

(** The label of an ability node with the brackets removed. *)
Definition ability_name_jp (ability_elem : Element) : list N :=
  replace (py "】") []
    (replace (py "【") [] (get_default ability_elem (py "name") [])).

(** The body of the loop of [parse_abilities]. *)
Definition parse_abilities_step `{UnicodeData} (ability_elem : Element)
    (json_data : json_data_t) : result json_data_t :=
  let ability_name_en := ability_mapping !! ability_name_jp ability_elem in
  if truthy_opt ability_name_en then
    v ← get_int_value (Some ability_elem) (py "text");
    set_ability_value (default [] ability_name_en) v json_data
  else Ok json_data.

Definition parse_abilities `{UnicodeData} (root : Element)
    (json_data : json_data_t) : result json_data_t :=
  for_each (findall abilities_path root) parse_abilities_step json_data.

Definition traits_mapping : gmap (list N) (list N) :=
  list_to_map [
    (py "尊ぶもの", py "ideal");
    (py "人格的特徴", py "trait");
    (py "関わり深いもの", py "bond");
    (py "弱味", py "flaw")
  ].

(** [".//data[@name='特徴等']"] *)
Definition traits_path : list selector :=
  [Self; Descendant (py "data"); AttrEq (py "name") (py "特徴等")].

(** The body of the loop of [parse_traits]. *)
Definition parse_traits_step (trait_elem : Element) (json_data : json_data_t)
    : result json_data_t :=
  let xml_name := get trait_elem (py "name") in
  let json_name := xml_name ≫= (fun n => traits_mapping !! n) in
  if truthy_opt json_name
  then t ← get_text (Some trait_elem);
       Ok (set_detail (default [] json_name) t json_data)
  else Ok json_data.

Definition parse_traits (root : Element) (json_data : json_data_t)
    : result json_data_t :=
  match find traits_path root with
  | Some traits_elem =>
    for_each (findall [Child (py "data")] traits_elem) parse_traits_step
      json_data
  | None => Ok json_data
  end.

(** [".//data[@name='アイテム']"] *)
Definition items_path : list selector :=
  [Self; Descendant (py "data"); AttrEq (py "name") (py "アイテム")].

(** The body of the loop of [parse_items]. *)
Definition parse_items_step (item_elem : Element) (json_data : json_data_t)
    : result json_data_t :=
  let item_name := get item_elem (py "name") in
  t ← get_text (Some item_elem);
  Ok (with_items
        (fun l => l ++ [Item item_name (py "item") (ItemSystem (Box t))])
        json_data).

Definition parse_items (root : Element) (json_data : json_data_t)
    : result json_data_t :=
  match find items_path root with
  | Some items_elem =>
    for_each (findall [Child (py "data")] items_elem) parse_items_step
      json_data
  | None => Ok json_data
  end.

Definition ability_keys : list (list N) :=
  [py "str"; py "dex"; py "con"; py "int"; py "wis"; py "cha"].

(** [range(1, 10)] *)
Definition levels : list Z := seqZ 1 9.

(** [f"spell{level}"] *)
Definition spell_key (level : Z) : list N := py "spell" ++ str_of_Z level.

(** [f"LV{level_num}"] *)
Definition xml_level_name (level_num : Z) : list N :=
  py "LV" ++ str_of_Z level_num.

(** [{key: {"value": 0} for key in [...]}] *)
Definition initial_abilities : gmap (list N) (boxed Z) :=
  list_to_map (map (fun key => (key, Box 0)) ability_keys).

(** [{"alignment": "", "race": "", "biography": {"value": ""}}] *)
Definition initial_details : gmap (list N) detail :=
  list_to_map [(py "alignment", DText []); (py "race", DText []);
               (py "biography", DBoxed (Box []))].

(** [{f"spell{level}": {"value": 0, "max": 0} for level in range(1, 10)}] *)
Definition initial_spells : gmap (list N) counter :=
  list_to_map (map (fun level => (spell_key level, Counter 0 0)) levels).

(** The record the conversion starts from. *)
Definition initial_json_data : json_data_t :=
  JsonData [] (py "character")
    (System initial_abilities
       (Attributes (Counter 0 0) (Box []))
       initial_details
       initial_spells)
    [].

(** [".//data[@name='character']/data[@name='name']"] *)
Definition name_path : list selector :=
  [Self; Descendant (py "data"); AttrEq (py "name") (py "character");
   Child (py "data"); AttrEq (py "name") (py "name")].

(** [".//data[@name='行動データ']/data[@name='ヒット・ポイント']"] *)
Definition hp_path : list selector :=
  [Self; Descendant (py "data"); AttrEq (py "name") (py "行動データ");
   Child (py "data"); AttrEq (py "name") (py "ヒット・ポイント")].

(** [".//data[@name='ヒット・ダイス']"] *)
Definition hit_dice_path : list selector :=
  [Self; Descendant (py "data"); AttrEq (py "name") (py "ヒット・ダイス")].

(** [".//data[@name='属性']"] *)
Definition alignment_path : list selector :=
  [Self; Descendant (py "data"); AttrEq (py "name") (py "属性")].

(** [".//data[@name='種族']"] *)
Definition race_path : list selector :=
  [Self; Descendant (py "data"); AttrEq (py "name") (py "種族")].

(** [f".//data[@name='{xml_level_name}']/data[@name='スロット']"] *)
Definition slot_path (level_num : Z) : list selector :=
  [Self; Descendant (py "data");
   AttrEq (py "name") (xml_level_name level_num);
   Child (py "data"); AttrEq (py "name") (py "スロット")].

(** [".//data[@name='detail']"] *)
Definition detail_path : list selector :=
  [Self; Descendant (py "data"); AttrEq (py "name") (py "detail")].

(** The hit-point step of [xml_to_fvtt_json]. *)
Definition parse_hp `{UnicodeData} (root : Element) (json_data : json_data_t)
    : result json_data_t :=
  match find hp_path root with
  | Some hp_elem =>
    v ← get_int_value (Some hp_elem) (py "currentValue");
    let json_data := set_hp_value v json_data in
    m ← get_int_value (Some hp_elem) (py "text");
    Ok (set_hp_max m json_data)
  | None => Ok json_data
  end.

(** The body of the loop over [range(1, 10)]. *)
Definition parse_spell_level `{UnicodeData} (root : Element) (level_num : Z)
    (json_data : json_data_t) : result json_data_t :=
  match find (slot_path level_num) root with
  | Some slot_elem =>
    v ← get_int_value (Some slot_elem) (py "currentValue");
    json_data ← set_spell_value (spell_key level_num) v json_data;
    m ← get_int_value (Some slot_elem) (py "text");
    set_spell_max (spell_key level_num) m json_data
  | None => Ok json_data
  end.

Definition skip_names : gset (list N) :=
  list_to_set [
    py "基本"; py "能力値"; py "行動データ"; py "技能";
    py "セーヴィングスロー"; py "特徴等"; py "imageIdentifier";
    py "ヒット・ダイス"; py "ヒット・ポイント"; py "属性"; py "種族";
    py "アイテム"
  ].

(** [name in skip_names], where [name] may be [None]. *)
Definition in_skip_names (name : option (list N)) : bool :=
  match name with
  | Some n => bool_decide (n ∈ skip_names)
  | None => false
  end.

(** The body of the biography loop: [continue] on a node without a name, with
    a name in the skip set or without text, a line appended otherwise. *)
Definition unconverted_step (data_elem : Element)
    (unconverted_data : list (list N)) : result (list (list N)) :=
  let name := get data_elem (py "name") in
  if negb (truthy_opt name) || in_skip_names name
     || negb (truthy_opt (text data_elem))
  then Ok unconverted_data
  else
    t ← str_strip (text data_elem);
    Ok (unconverted_data ++ [format name ++ py ": " ++ t]).

(** The biography loop over the descendants of the [detail] node. *)
Definition collect_unconverted (root : Element) : result (list (list N)) :=
  match find detail_path root with
  | Some detail_elem =>
    for_each (findall [Self; Descendant (py "data")] detail_elem)
      unconverted_step []
  | None => Ok []
  end.

(** The [try] body of [xml_to_fvtt_json] once the document is parsed. *)
Definition convert `{UnicodeData} (root : Element) : result json_data_t :=
  let json_data := initial_json_data in
  let name_elem := find name_path root in
  n ← get_text name_elem;
  let json_data := with_name n json_data in
  json_data ← parse_abilities root json_data;
  json_data ← parse_hp root json_data;
  let hit_dice_elem := find hit_dice_path root in
  t ← get_text hit_dice_elem;
  let json_data := set_hd_value t json_data in
  let alignment_elem := find alignment_path root in
  t ← get_text alignment_elem;
  let json_data := set_detail (py "alignment") t json_data in
  let race_elem := find race_path root in
  t ← get_text race_elem;
  let json_data := set_detail (py "race") t json_data in
  json_data ← for_each levels (parse_spell_level root) json_data;
  json_data ← parse_traits root json_data;
  json_data ← parse_items root json_data;
  unconverted_data ← collect_unconverted root;
  match unconverted_data with
  | _ :: _ => set_biography_value (join newline unconverted_data) json_data
  | [] => Ok json_data
  end.

(** What [logger.error] was called for. *)
Inductive log_record :=
  | XmlSyntaxLogged      (* "XML構文エラー: ..."            *)
  | UnexpectedLogged.    (* "変換中に予期しないエラー: ..."  *)

(** The log and the returned value; [None] is Python's [None]. *)
Definition xml_to_fvtt_json `{XMLParser} `{UnicodeData} (xml_string : list N)
    : list log_record * option json_data_t :=
  match
    bs ← encode_utf8 xml_string;
    root ← fromstring bs;
    convert root
  with
  | Ok json_data => ([], Some json_data)
  | Raise XMLSyntaxError => ([XmlSyntaxLogged], None)
  | Raise _ => ([UnexpectedLogged], None)
  end.

(** ** What the conversion computes

    The destination record as a function of the document, one definition
    per field, stated on the document and free of exceptions.  The theorems
    below show that [convert] returns exactly this record. *)

(** A value read as an integer: trimmed and parsed, 0 when it is absent or
    does not parse. *)
Definition int_or_zero `{UnicodeData} (value : option (list N)) : Z :=
  match value with
  | Some v => match PyInt.int (strip v) with
              | Ok n => n
              | Raise _ => 0
              end
  | None => 0
  end.

(** The text of a node that may be missing: trimmed, empty by default. *)
Definition text_or_empty (elem : option Element) : list N :=
  match elem with
  | Some e => match text e with
              | Some t => strip t
              | None => []
              end
  | None => []
  end.

(** The canonical identifier an ability node is mapped to, if any. *)
Definition ability_key_of (e : Element) : option (list N) :=
  k ← ability_mapping !! ability_name_jp e;
  if truthy k then Some k else None.

Definition ability_update `{UnicodeData} (A : gmap (list N) (boxed Z))
    (e : Element) : gmap (list N) (boxed Z) :=
  match ability_key_of e with
  | Some k => <[k := Box (int_or_zero (text e))]> A
  | None => A
  end.

Definition counter_of `{UnicodeData} (e : Element) : counter :=
  Counter (int_or_zero (get e (py "currentValue"))) (int_or_zero (text e)).

Definition counter_at `{UnicodeData} (path : list selector) (root : Element)
    : counter :=
  match find path root with
  | Some e => counter_of e
  | None => Counter 0 0
  end.

(** The counter read from the slot node of a level, if there is one. *)
Definition slot_counter `{UnicodeData} (root : Element) (level : Z)
    : option counter :=
  counter_of <$> find (slot_path level) root.

Definition spell_update `{UnicodeData} (root : Element)
    (S : gmap (list N) counter) (level : Z) : gmap (list N) counter :=
  match slot_counter root level with
  | Some c => <[spell_key level := c]> S
  | None => S
  end.

Definition trait_key_of (e : Element) : option (list N) :=
  k ← get e (py "name") ≫= (fun n => traits_mapping !! n);
  if truthy k then Some k else None.

Definition trait_update (D : gmap (list N) detail) (e : Element)
    : gmap (list N) detail :=
  match trait_key_of e with
  | Some k => <[k := DText (text_or_empty (Some e))]> D
  | None => D
  end.

(** The record of one inventory child. *)
Definition item_record (e : Element) : item :=
  Item (get e (py "name")) (py "item")
       (ItemSystem (Box (text_or_empty (Some e)))).

(** The children of the inventory container that become items. *)
Definition item_nodes (root : Element) : list Element :=
  match find items_path root with
  | Some c => iterchildren (py "data") c
  | None => []
  end.

(** The biography line of a node: its name, a colon and a space, and its
    trimmed text, when the name is not empty, not in the skip set, and the
    text is not empty before trimming. *)
Definition biography_line (e : Element) : option (list N) :=
  match get e (py "name"), text e with
  | Some n, Some t =>
    if truthy n && negb (bool_decide (n ∈ skip_names)) && truthy t
    then Some (n ++ py ": " ++ strip t)
    else None
  | _, _ => None
  end.

Definition biography_lines (root : Element) : list (list N) :=
  match find detail_path root with
  | Some d => omap biography_line (iterdescendants (py "data") d)
  | None => []
  end.

Definition converted `{UnicodeData} (root : Element) : json_data_t :=
  JsonData
    (text_or_empty (find name_path root))
    (py "character")
    (System
       (fold_left ability_update (findall abilities_path root)
          initial_abilities)
       (Attributes (counter_at hp_path root)
          (Box (text_or_empty (find hit_dice_path root))))
       (<[py "biography" := DBoxed (Box (join newline (biography_lines root)))]>
          (fold_left trait_update
             (match find traits_path root with
              | Some c => iterchildren (py "data") c
              | None => []
              end)
             (<[py "race" := DText (text_or_empty (find race_path root))]>
                (<[py "alignment" :=
                     DText (text_or_empty (find alignment_path root))]>
                   initial_details))))
       (fold_left (spell_update root) levels initial_spells))
    (map item_record (item_nodes root)).

(** Every key of [ks] is bound in [m]. *)
Definition has_keys {V} (ks : list (list N)) (m : gmap (list N) V) : Prop :=
  forall k, k ∈ ks -> is_Some (m !! k).

Definition trait_keys : list (list N) :=
  [py "ideal"; py "trait"; py "bond"; py "flaw"].

Arguments get_text : simpl never.
Arguments get_int_value : simpl never.
Arguments find : simpl never.
Arguments findall : simpl never.
Arguments strip : simpl never.
Arguments PyInt.int : simpl never.
Arguments ability_name_jp : simpl never.
Arguments int_or_zero : simpl never.
Arguments text_or_empty : simpl never.
Arguments levels : simpl never.
Arguments initial_abilities : simpl never.
Arguments initial_details : simpl never.
Arguments initial_spells : simpl never.

(** The value [get_int_value] reads:
    [elem.get(attrib_name) if attrib_name != "text" else elem.text]. *)
Definition value_of (e : Element) (attrib_name : list N)
    : option (list N) :=
  if bool_decide (attrib_name = py "text") then text e else get e attrib_name.

(** The ability nodes mapped to [key], in document order. *)
Definition ability_nodes (key : list N) (root : Element) : list Element :=
  filter (fun e => ability_key_of e = Some key) (findall abilities_path root).

(** The biography of a returned record. *)
Definition biography_of (r : result json_data_t) : option (list N) :=
  match r with
  | Ok j => match details (system j) !! py "biography" with
            | Some (DBoxed b) => Some (value b)
            | _ => None
            end
  | Raise _ => None
  end.

(** The biography as the specification words it, for a given reading of a
    node's text: a line for every named node outside the skip set that
    bears text, skipping nodes with no name or no text. *)
Definition claimed_biography_line (text_of : Element -> list N) (e : Element)
    : option (list N) :=
  match get e (py "name") with
  | Some n =>
    if truthy n && negb (bool_decide (n ∈ skip_names)) && truthy (text_of e)
    then Some (n ++ py ": " ++ text_of e)
    else None
  | None => None
  end.

Definition claimed_biography (text_of : Element -> list N) (root : Element)
    : list N :=
  match find detail_path root with
  | Some d =>
    join newline
      (omap (claimed_biography_line text_of) (iterdescendants (py "data") d))
  | None => []
  end.

(** The two readings of a node's text: trimmed, as the text helper returns
    it, and as written. *)
Definition trimmed_text (e : Element) : list N := text_or_empty (Some e).
Definition verbatim_text (e : Element) : list N := default [] (text e).

Definition well_formed `{XMLParser} (xml_string : list N) (root : Element)
    : Prop :=
  exists bs, encode_utf8 xml_string = Ok bs /\ fromstring bs = Ok root.

(** The parser reports markup that is not well formed by raising
    [XMLSyntaxError]. *)
Definition malformed `{XMLParser} (xml_string : list N) : Prop :=
  exists bs,
    encode_utf8 xml_string = Ok bs /\ fromstring bs = Raise XMLSyntaxError.

(** ** Sample documents *)

(** A runtime whose decimal digits are the ASCII ones. *)
Definition ascii_digits : UnicodeData := {| unicode_decimal := fun _ => None |}.

(** A runtime that also knows the Arabic-Indic digits, U+0660 to U+0669. *)
Definition arabic_indic_digits : UnicodeData :=
  {| unicode_decimal c :=
       if ((1632 <=? c) && (c <=? 1641))%N then Some (c - 1632)%N else None |}.

(** [<data name="n" ...>text children</data>] *)
Definition data (n : string) (attrs : list (list N * list N))
    (t : option (list N)) (cs : list Element) : Element :=
  mkElement (py "data") (<[py "name" := py n]> (list_to_map attrs)) t cs.

Definition sample_sheet : Element :=
  mkElement (py "character") ∅ None [
    data "character" [] None [
      data "name" [] (Some (py " Alice ")) [];
      data "detail" [] None [
        data "能力値" [] None [
          data "【筋力】" [] (Some (py "15")) [];
          data "敏捷力" [] (Some (py "abc")) [];
          data "耐久力" [] None [];
          data "幸運" [] (Some (py "9")) []
        ];
        data "行動データ" [] None [
          data "ヒット・ポイント" [(py "currentValue", py "7")]
            (Some (py "10")) []
        ];
        data "呪文" [] None [
          data "LV3" [] None [
            data "スロット" [(py "currentValue", py "2")] (Some (py "4")) []
          ]
        ];
        data "アイテム" [] None [
          data "sword" [] (Some (py " sharp ")) [];
          data "rope" [] (Some (py "50 ft")) []
        ];
        data "Foo" [] (Some (py "X")) []
      ]
    ]
  ].

(** An inventory whose second child has no [name] attribute. *)
Definition nameless_item_sheet : Element :=
  mkElement (py "character") ∅ None [
    data "アイテム" [] None [
      data "sword" [] (Some (py "sharp")) [];
      mkElement (py "data") ∅ (Some (py "anon")) []
    ]
  ].

(** An inventory with a [data] child and a child of another tag. *)
Definition mixed_children_sheet : Element :=
  mkElement (py "character") ∅ None [
    data "アイテム" [] None [
      data "sword" [] (Some (py "sharp")) [];
      mkElement (py "memo") {[ py "name" := py "note" ]} (Some (py "x")) []
    ]
  ].

(** A named node under [detail] whose text is a single space. *)
Definition blank_text_sheet : Element :=
  mkElement (py "character") ∅ None [
    data "detail" [] None [
      data "Foo" [] (Some (py " ")) []
    ]
  ].

Definition sample_markup : list N :=
  py "<character><data name='アイテム'/></character>".

Definition unclosed_markup : list N := py "<character><data>".

(** A parser that knows one document and rejects everything else. *)
Definition sample_parser : XMLParser :=
  {| fromstring bs :=
       match encode_utf8 sample_markup with
       | Ok known =>
         if bool_decide (bs = known)
         then Ok (mkElement (py "character") ∅ None
                    [data "アイテム" [] None []])
         else Raise XMLSyntaxError
       | Raise _ => Raise XMLSyntaxError
       end |}.

(** The number a string of ASCII digits denotes. *)
Definition digits_value (ds : list N) : Z :=
  fold_left (fun acc c => acc * 10 + (Z.of_N c - 48)) ds 0.

Definition is_digit (c : N) : Prop := (48 <= c <= 57)%N.

(** ** The command line

    The block under [if __name__ == "__main__":], from the parsed argument
    on.  Paths are POSIX paths ([os.path] is [posixpath]). *)

Module PyPath.

Definition sep : N := 47.
Definition extsep : N := 46.

Fixpoint rfind_from (c : N) (p : list N) (i last : Z) : Z :=
  match p with
  | [] => last
  | x :: r => rfind_from c r (i + 1) (if (x =? c)%N then i else last)
  end.

(** [p.rfind(c)] for a one-character [c]: the last index, or -1. *)
Definition rfind (c : N) (p : list N) : Z := rfind_from c p 0 (-1).

(** [os.path.basename(p)] *)
Definition basename (p : list N) : list N :=
  drop (Z.to_nat (rfind sep p + 1)) p.

(** [os.path.splitext(p)]: the extension starts at the last dot, unless that
    dot has only dots between it and the start of the last component. *)
Definition splitext (p : list N) : list N * list N :=
  let sepIndex := rfind sep p in
  let dotIndex := rfind extsep p in
  if (sepIndex <? dotIndex)
     && existsb (fun c => negb (c =? extsep)%N)
          (take (Z.to_nat (dotIndex - (sepIndex + 1)))
                (drop (Z.to_nat (sepIndex + 1)) p))
  then (take (Z.to_nat dotIndex) p, drop (Z.to_nat dotIndex) p)
  else (p, []).

End PyPath.

(** [str.lower()] maps an ASCII letter to its lower case and leaves the
    other ASCII characters; what it writes for a character outside ASCII is
    the Unicode database's (and depends on the context for a capital
    sigma): a parameter, by string and position. *)
Class CaseData := { lower_at : list N -> nat -> list N }.

Definition ascii_lower (c : N) : N :=
  if ((65 <=? c) && (c <=? 90))%N then (c + 32)%N else c.

(** [s.lower()] *)
Definition lower `{CaseData} (s : list N) : list N :=
  concat (imap (fun i c => if (c <? 128)%N then [ascii_lower c]
                           else lower_at s i) s).

(** What [open(input_filename, "r", encoding="utf-8")] and [f.read()] give:
    the text, [FileNotFoundError], or another exception (a directory, a
    permission, bytes that are not UTF-8), which nothing catches. *)
Inductive read_outcome :=
  | ReadOk (xml_data : list N)
  | ReadFileNotFound
  | ReadRaises.

(** The files the process sees. *)
Class FileSystem := {
  read_text : list N -> read_outcome;
  (** whether [open(output_filename, "w")] succeeds *)
  writable : list N -> bool
}.

(** What the process logged. *)
Inductive main_log_record :=
  | NotXmlLogged                             (* the input must be XML   *)
  | FileNotFoundLogged (input_filename : list N)
  | ConverterLogged (r : log_record)         (* by [xml_to_fvtt_json]    *)
  | WrittenLogged (output_filename : list N) (* converted, with the name *)
  | ConversionFailedLogged.                  (* the conversion failed    *)

(** How the process ended: at the end of the script, by [sys.exit(status)],
    or on an exception nothing caught. *)
Inductive process_end :=
  | Completed
  | Exited (status : Z)
  | Uncaught.

Definition exit_status (e : process_end) : Z :=
  match e with
  | Completed => 0
  | Exited status => status
  | Uncaught => 1
  end.

(** A run: the log, the files written with the record [json.dump] was given,
    and the end. *)
Record run := Run {
  run_log : list main_log_record;
  run_written : list (list N * json_data_t);
  run_end : process_end
}.

(** [f"2converted_{base_filename}.json"] *)
Definition output_filename_of (base_filename : list N) : list N :=
  py "2converted_" ++ base_filename ++ py ".json".

Definition main `{XMLParser} `{UnicodeData} `{CaseData} `{FileSystem}
    (input_filename : list N) : run :=
  let '(base_filename, ext) :=
    PyPath.splitext (PyPath.basename input_filename) in
  let output_filename := output_filename_of base_filename in
  if negb (bool_decide (lower ext = py ".xml")) then
    Run [NotXmlLogged] [] (Exited 1)
  else
    match read_text input_filename with
    | ReadFileNotFound =>
      Run [FileNotFoundLogged input_filename] [] (Exited 1)
    | ReadRaises => Run [] [] Uncaught
    | ReadOk xml_data =>
      let '(log, converted_json) := xml_to_fvtt_json xml_data in
      match converted_json with
      | Some json_data =>
        if writable output_filename then
          Run (map ConverterLogged log ++ [WrittenLogged output_filename])
              [(output_filename, json_data)] Completed
        else Run (map ConverterLogged log) [] Uncaught
      | None =>
        Run (map ConverterLogged log ++ [ConversionFailedLogged]) []
            Completed
      end
    end.

(** An input the extension test lets through. *)
Definition accepted `{CaseData} (input_filename : list N) : Prop :=
  lower (PyPath.splitext (PyPath.basename input_filename)).2 = py ".xml".

(** A run environment for the samples: ASCII case mapping only, and one
    readable file. *)
Definition ascii_case : CaseData := {| lower_at s i := take 1 (drop i s) |}.

Definition sample_files : FileSystem :=
  {| read_text p :=
       if bool_decide (p = py "sheets/hero.XML") then ReadOk sample_markup
       else if bool_decide (p = py "broken.xml") then ReadOk unclosed_markup
       else if bool_decide (p = py "folder.xml") then ReadRaises
       else ReadFileNotFound;
     writable p := negb (bool_decide (p = py "2converted_locked.json")) |}.

(** The children of the traits container mapped to [key], in document
    order. *)
Definition trait_nodes (key : list N) (root : Element) : list Element :=
  filter (fun e => trait_key_of e = Some key)
    (match find traits_path root with
     | Some c => iterchildren (py "data") c
     | None => []
     end).

(** The keys the [details] dictionary can hold. *)
Definition detail_keys : list (list N) :=
  [py "alignment"; py "race"; py "biography";
   py "ideal"; py "trait"; py "bond"; py "flaw"].

(** A code point in the surrogate range, which UTF-8 cannot encode. *)
Definition surrogate (c : N) : Prop := (55296 <= c <= 57343)%N.

(** A record without any ability key. *)
Definition no_ability_keys : json_data_t :=
  JsonData [] (py "character")
    (System ∅ (Attributes (Counter 0 0) (Box [])) initial_details
       initial_spells) [].

(** The two brackets 【 (U+3010) and 】 (U+3011). *)
Definition bracket (c : N) : bool := ((c =? 12304) || (c =? 12305))%N.

(** An optional sign: nothing, [+] or [-]. *)
Inductive sign := NoSign | Plus | Minus.

Definition sign_text (s : sign) : list N :=
  match s with
  | NoSign => []
  | Plus => py "+"
  | Minus => py "-"
  end.

Definition signed (s : sign) (n : Z) : Z :=
  match s with
  | Minus => - n
  | _ => n
  end.

(** A node whose text is [" -12 "], and one whose text is 4301 nines. *)
Definition negative_node : Element :=
  mkElement (py "data") ∅ (Some (py " -12 ")) [].

Definition long_numeral_node : Element :=
  mkElement (py "data") ∅ (Some (replicate 4301 57%N)) [].

(** A text without the character [c]. *)
Definition free_of (c : N) (s : list N) : Prop := c ∉ s.

(** The test of [splitext]: some character is not a dot. *)
Definition has_non_dot (s : list N) : bool :=
  existsb (fun c => negb (c =? PyPath.extsep)%N) s.

(** A directory prefix: empty, or ending in a slash. *)
Definition dir_prefix (d : list N) : Prop :=
  d = [] \/ last d = Some PyPath.sep.

Definition ascii (s : list N) : Prop := Forall (fun c => (c < 128)%N) s.

(** The document [sample_parser] returns for [sample_markup]. *)
Definition sample_markup_root : Element :=
  mkElement (py "character") ∅ None [data "アイテム" [] None []].

(** ** Basic facts *)

Lemma bind_Ok {A B} (a : A) (f : A -> result B) : (Ok a ≫= f) = f a.
Proof. reflexivity. Qed.

Section Helper_facts.
Context `{UnicodeData}.

Lemma from_string_raises t e :
  PyInt.from_string t = Raise e -> e = ValueError.
Proof.
  unfold PyInt.from_string.
  repeat case_match; congruence.
Qed.

Lemma int_raises s e : PyInt.int s = Raise e -> e = ValueError.
Proof.
  unfold PyInt.int.
  destruct (PyInt.transform s); [apply from_string_raises | congruence].
Qed.

Lemma get_text_eq elem : get_text elem = Ok (text_or_empty elem).
Proof.
  destruct elem as [e|]; [|reflexivity].
  unfold get_text, text_or_empty. simpl.
  destruct (text e) as [t|]; simpl; [|reflexivity].
  destruct t; reflexivity.
Qed.

Lemma get_int_value_some e attrib_name :
  get_int_value (Some e) attrib_name =
  Ok (int_or_zero (if bool_decide (attrib_name = py "text")
                   then text e else get e attrib_name)).
Proof.
  unfold get_int_value, int_or_zero.
  destruct (bool_decide (attrib_name = py "text")); simpl;
    match goal with |- context [truthy_opt ?x] => destruct x as [v|] end;
    simpl; try reflexivity.
  all: destruct v as [|c v]; simpl; [reflexivity|].
  all: destruct (PyInt.int (strip (c :: v))) as [n|e'] eqn:E; simpl;
    [reflexivity|].
  all: apply int_raises in E; subst e'; reflexivity.
Qed.

Lemma get_int_value_text e :
  get_int_value (Some e) (py "text") = Ok (int_or_zero (text e)).
Proof. rewrite get_int_value_some. reflexivity. Qed.

Lemma get_int_value_currentValue e :
  get_int_value (Some e) (py "currentValue")
  = Ok (int_or_zero (get e (py "currentValue"))).
Proof. rewrite get_int_value_some. reflexivity. Qed.

End Helper_facts.

(** ** Trimming *)

Lemma lstrip_decompose s :
  exists l, s = l ++ lstrip s /\ forallb isspace l = true.
Proof.
  induction s as [|c s (l & Hs & Hl)]; simpl.
  - by exists [].
  - destruct (isspace c) eqn:Hc.
    + exists (c :: l). simpl. rewrite Hc, Hl. split; [by f_equal | done].
    + by exists [].
Qed.

Lemma lstrip_head s c : head (lstrip s) = Some c -> isspace c = false.
Proof.
  induction s as [|a s IH]; simpl; [discriminate|].
  destruct (isspace a) eqn:Ha; [exact IH|].
  simpl. by intros [= <-].
Qed.

Lemma lstrip_all_space s : forallb isspace s = true -> lstrip s = [].
Proof.
  induction s as [|c s IH]; simpl; [reflexivity|].
  intros Hs. apply andb_true_iff in Hs as [-> Hs]. by apply IH.
Qed.

Lemma forallb_rev_eq {A} (f : A -> bool) (l : list A) :
  forallb f (rev l) = forallb f l.
Proof.
  induction l as [|a l IH]; simpl; [reflexivity|].
  rewrite forallb_app, IH. simpl. rewrite andb_true_r. apply andb_comm.
Qed.

Lemma last_rev_head {A} (l : list A) : last (rev l) = head l.
Proof. destruct l as [|a l]; simpl; [reflexivity | apply last_snoc]. Qed.

Lemma rstrip_decompose s :
  exists r, s = rstrip s ++ r /\ forallb isspace r = true.
Proof.
  unfold rstrip. destruct (lstrip_decompose (rev s)) as (l & Hs & Hl).
  exists (rev l). split.
  - rewrite <- rev_app_distr, <- Hs. by rewrite rev_involutive.
  - by rewrite forallb_rev_eq.
Qed.

Lemma rstrip_last s c : last (rstrip s) = Some c -> isspace c = false.
Proof.
  unfold rstrip. rewrite last_rev_head. apply lstrip_head.
Qed.

(** [strip] removes a run of whitespace at each end, and nothing else. *)
Lemma strip_decompose s :
  exists l r,
    s = l ++ strip s ++ r
    /\ forallb isspace l = true /\ forallb isspace r = true.
Proof.
  unfold strip.
  destruct (lstrip_decompose s) as (l & Hs & Hl).
  destruct (rstrip_decompose (lstrip s)) as (r & Hr & Hsr).
  exists l, r. rewrite <- Hr. auto.
Qed.

Lemma strip_ends s :
  (forall c, head (strip s) = Some c -> isspace c = false)
  /\ (forall c, last (strip s) = Some c -> isspace c = false).
Proof.
  split; intros c Hc.
  - unfold strip in Hc. apply (lstrip_head s).
    destruct (rstrip_decompose (lstrip s)) as (r & Hr & _).
    rewrite Hr. destruct (rstrip (lstrip s)); [discriminate | exact Hc].
  - unfold strip in Hc. by apply rstrip_last in Hc.
Qed.

Lemma strip_all_space s : forallb isspace s = true -> strip s = [].
Proof. intros Hs. unfold strip. by rewrite lstrip_all_space. Qed.

(** ** Parsing integers: decimal numerals *)

Section Numerals.
Context `{UnicodeData}.

Lemma transform_digits ds : Forall is_digit ds -> PyInt.transform ds = Some ds.
Proof.
  induction 1 as [|c ds Hc _ IH]; simpl; [reflexivity|].
  unfold PyInt.to_ascii. unfold is_digit in Hc.
  destruct (N.ltb_spec c 127); [|lia]. by rewrite IH.
Qed.

Lemma digit_val_digit c : is_digit c -> PyInt.digit_val c = Some (Z.of_N c - 48).
Proof.
  unfold is_digit, PyInt.digit_val. intros Hc.
  destruct (N.leb_spec 48 c); [|lia].
  destruct (N.leb_spec c 57); [|lia]. reflexivity.
Qed.

Lemma scan_digits ds acc n :
  Forall is_digit ds ->
  PyInt.scan false acc n ds
  = Some (fold_left (fun acc c => acc * 10 + (Z.of_N c - 48)) ds acc,
          (n + length ds)%nat, []).
Proof.
  intros Hds. revert acc n.
  induction Hds as [|c ds Hc _ IH]; intros acc n; simpl.
  - by rewrite Nat.add_0_r.
  - rewrite digit_val_digit by exact Hc. unfold is_digit in Hc.
    unfold PyInt.underscore. destruct (N.eqb_spec c 95); [lia|].
    rewrite IH. by rewrite Nat.add_succ_r.
Qed.

Lemma digit_cases c :
  is_digit c ->
  c ∈ [48; 49; 50; 51; 52; 53; 54; 55; 56; 57]%N.
Proof.
  unfold is_digit. intros Hc.
  assert (Hn : exists k, (k < 10)%nat /\ c = (48 + N.of_nat k)%N)
    by (exists (N.to_nat (c - 48)); lia).
  destruct Hn as (k & Hk & ->).
  do 10 (destruct k as [|k]; [vm_compute; repeat constructor|]). lia.
Qed.

(** A non-empty string of at most 4300 ASCII digits parses to the number
    it denotes. *)
Lemma int_decimal ds :
  ds <> [] -> Forall is_digit ds -> (length ds <= PyInt.max_str_digits)%nat ->
  PyInt.int ds = Ok (digits_value ds).
Proof.
  intros Hne Hds Hlen. unfold PyInt.int. rewrite transform_digits by exact Hds.
  destruct ds as [|c ds]; [done|].
  pose proof (scan_digits (c :: ds) 0 0 Hds) as Hscan.
  apply Forall_cons in Hds as [Hc Hds].
  unfold PyInt.from_string.
  assert (Hskip : PyInt.skip_space (c :: ds) = c :: ds).
  { apply digit_cases in Hc.
    repeat (apply elem_of_cons in Hc as [->|Hc]; [reflexivity|]).
    by apply elem_of_nil in Hc. }
  rewrite Hskip.
  assert (Hsign :
    match c :: ds with
    | 43%N :: r => (false, r)
    | 45%N :: r => (true, r)
    | _ => (false, c :: ds)
    end = (false, c :: ds)).
  { apply digit_cases in Hc.
    repeat (apply elem_of_cons in Hc as [->|Hc]; [reflexivity|]).
    by apply elem_of_nil in Hc. }
  rewrite Hsign.
  assert (Hus : (c =? PyInt.underscore)%N = false).
  { unfold is_digit in Hc. unfold PyInt.underscore. apply N.eqb_neq. lia. }
  rewrite Hus, Hscan.
  cbn [length Nat.add PyInt.skip_space].
  destruct (Nat.ltb_spec PyInt.max_str_digits (S (length ds)));
    [simpl in Hlen; lia | reflexivity].
Qed.

End Numerals.

(** ** Loops *)

Lemma has_keys_insert {V} (ks : list (list N)) (m : gmap (list N) V)
    (k : list N) (v : V) :
  has_keys ks m -> has_keys ks (<[k := v]> m).
Proof.
  intros Hm k' Hk'. rewrite lookup_insert_is_Some.
  destruct (decide (k = k')); [by left | right; split; [done | by apply Hm]].
Qed.

Lemma findall_child t c : findall [Child t] c = iterchildren t c.
Proof. unfold findall, iterfind. simpl. apply app_nil_r. Qed.

Lemma findall_descendant t d :
  findall [Self; Descendant t] d = iterdescendants t d.
Proof. unfold findall, iterfind. simpl. apply app_nil_r. Qed.

Lemma ability_mapping_values x k :
  ability_mapping !! x = Some k -> k ∈ ability_keys /\ truthy k = true.
Proof.
  intros Hl. apply elem_of_list_to_map_2 in Hl.
  unfold ability_keys.
  repeat (apply elem_of_cons in Hl as [Hl|Hl];
          [inversion Hl; subst; split; [set_solver | reflexivity] |]).
  by apply elem_of_nil in Hl.
Qed.

Lemma traits_mapping_values x k :
  traits_mapping !! x = Some k -> k ∈ trait_keys /\ truthy k = true.
Proof.
  intros Hl. apply elem_of_list_to_map_2 in Hl.
  unfold trait_keys.
  repeat (apply elem_of_cons in Hl as [Hl|Hl];
          [inversion Hl; subst; split; [set_solver | reflexivity] |]).
  by apply elem_of_nil in Hl.
Qed.

Lemma ability_key_of_in e k : ability_key_of e = Some k -> k ∈ ability_keys.
Proof.
  unfold ability_key_of.
  destruct (ability_mapping !! ability_name_jp e) as [k'|] eqn:E; simpl;
    [|discriminate].
  apply ability_mapping_values in E as [Hin Ht]. rewrite Ht.
  by intros [= <-].
Qed.

Lemma trait_key_of_in e k : trait_key_of e = Some k -> k ∈ trait_keys.
Proof.
  unfold trait_key_of.
  destruct (get e (py "name")) as [n|]; simpl; [|discriminate].
  destruct (traits_mapping !! n) as [k'|] eqn:E; simpl; [|discriminate].
  apply traits_mapping_values in E as [Hin Ht]. rewrite Ht.
  by intros [= <-].
Qed.

Section Phases.
Context `{UnicodeData}.

Lemma parse_abilities_step_eq e n t A att D S I :
  has_keys ability_keys A ->
  parse_abilities_step e (JsonData n t (System A att D S) I)
  = Ok (JsonData n t (System (ability_update A e) att D S) I).
Proof.
  intros HA. unfold parse_abilities_step, ability_update, ability_key_of.
  destruct (ability_mapping !! ability_name_jp e) as [k|] eqn:E; simpl;
    [|reflexivity].
  apply ability_mapping_values in E as [Hin Ht]. rewrite Ht.
  rewrite get_int_value_text, bind_Ok.
  unfold set_ability_value. simpl.
  destruct (HA k Hin) as [b ->]. reflexivity.
Qed.

Lemma ability_update_keys A e :
  has_keys ability_keys A -> has_keys ability_keys (ability_update A e).
Proof.
  intros HA. unfold ability_update.
  destruct (ability_key_of e); [by apply has_keys_insert | done].
Qed.

Lemma parse_abilities_eq root n t A att D S I :
  has_keys ability_keys A ->
  parse_abilities root (JsonData n t (System A att D S) I)
  = Ok (JsonData n t
          (System (fold_left ability_update (findall abilities_path root) A)
                  att D S) I).
Proof.
  unfold parse_abilities. generalize (findall abilities_path root) as l.
  intros l. revert A.
  induction l as [|e l IH]; intros A HA; simpl; [reflexivity|].
  rewrite parse_abilities_step_eq, bind_Ok by done.
  apply IH. by apply ability_update_keys.
Qed.

Lemma parse_hp_eq root n t A h d D S I :
  parse_hp root (JsonData n t (System A (Attributes h d) D S) I)
  = Ok (JsonData n t
          (System A
             (Attributes
                (match find hp_path root with
                 | Some e => counter_of e
                 | None => h
                 end) d) D S) I).
Proof.
  unfold parse_hp. destruct (find hp_path root) as [e|]; [|reflexivity].
  rewrite get_int_value_currentValue, bind_Ok.
  rewrite get_int_value_text, bind_Ok.
  reflexivity.
Qed.

Lemma parse_spell_level_eq root level n t A att D S I :
  is_Some (S !! spell_key level) ->
  parse_spell_level root level (JsonData n t (System A att D S) I)
  = Ok (JsonData n t (System A att D (spell_update root S level)) I).
Proof.
  intros [c Hc]. unfold parse_spell_level, spell_update, slot_counter.
  destruct (find (slot_path level) root) as [e|]; [|reflexivity].
  rewrite get_int_value_currentValue, bind_Ok.
  unfold set_spell_value. simpl. rewrite Hc, bind_Ok.
  rewrite get_int_value_text, bind_Ok.
  unfold set_spell_max. simpl. rewrite lookup_insert_eq. simpl.
  unfold with_system, with_spells. simpl.
  rewrite insert_insert_eq. reflexivity.
Qed.

Lemma spell_update_keys root S level ks :
  has_keys ks S -> has_keys ks (spell_update root S level).
Proof.
  intros HS. unfold spell_update.
  destruct (slot_counter root level); [by apply has_keys_insert | done].
Qed.

Lemma spell_levels_eq root ls n t A att D S I :
  has_keys (map spell_key ls) S ->
  for_each ls (parse_spell_level root) (JsonData n t (System A att D S) I)
  = Ok (JsonData n t
          (System A att D (fold_left (spell_update root) ls S)) I).
Proof.
  revert S. induction ls as [|l ls IH]; intros S HS; simpl; [reflexivity|].
  rewrite parse_spell_level_eq, bind_Ok by (apply HS; simpl; left).
  apply IH. intros k Hk. apply spell_update_keys with (ks := map spell_key (l :: ls)).
  - exact HS.
  - simpl. by right.
Qed.

Lemma parse_traits_step_eq e n t A att D S I :
  parse_traits_step e (JsonData n t (System A att D S) I)
  = Ok (JsonData n t (System A att (trait_update D e) S) I).
Proof.
  unfold parse_traits_step, trait_update, trait_key_of.
  destruct (get e (py "name") ≫= (fun n => traits_mapping !! n))
    as [k|] eqn:E; simpl; [|reflexivity].
  destruct (truthy k); [|reflexivity].
  rewrite get_text_eq, bind_Ok. reflexivity.
Qed.

Lemma parse_traits_eq root n t A att D S I :
  parse_traits root (JsonData n t (System A att D S) I)
  = Ok (JsonData n t
          (System A att
             (fold_left trait_update
                (match find traits_path root with
                 | Some c => iterchildren (py "data") c
                 | None => []
                 end) D) S) I).
Proof.
  unfold parse_traits. destruct (find traits_path root) as [c|]; [|reflexivity].
  rewrite findall_child. generalize (iterchildren (py "data") c) as l.
  intros l. revert D.
  induction l as [|e l IH]; intros D; simpl; [reflexivity|].
  rewrite parse_traits_step_eq, bind_Ok. apply IH.
Qed.

Lemma parse_items_step_eq e n t Sy I :
  parse_items_step e (JsonData n t Sy I)
  = Ok (JsonData n t Sy (I ++ [item_record e])).
Proof.
  unfold parse_items_step. cbv zeta. rewrite get_text_eq. reflexivity.
Qed.

Lemma parse_items_eq root n t Sy I :
  parse_items root (JsonData n t Sy I)
  = Ok (JsonData n t Sy (I ++ map item_record (item_nodes root))).
Proof.
  unfold parse_items, item_nodes.
  destruct (find items_path root) as [c|];
    [|by rewrite app_nil_r].
  rewrite findall_child. generalize (iterchildren (py "data") c) as l.
  intros l. revert I.
  induction l as [|e l IH]; intros I; simpl; [by rewrite app_nil_r|].
  rewrite parse_items_step_eq, bind_Ok, IH, <- app_assoc. reflexivity.
Qed.

Lemma unconverted_step_eq e acc :
  unconverted_step e acc
  = Ok (acc ++ match biography_line e with Some l => [l] | None => [] end).
Proof.
  unfold unconverted_step, biography_line.
  destruct (get e (py "name")) as [nm|]; simpl; [|by rewrite app_nil_r].
  destruct (truthy nm); simpl; [|by destruct (text e); rewrite app_nil_r].
  destruct (bool_decide (nm ∈ skip_names)); simpl;
    [by destruct (text e); rewrite app_nil_r|].
  destruct (text e) as [tx|]; simpl; [|by rewrite app_nil_r].
  destruct (truthy tx); simpl; [reflexivity | by rewrite app_nil_r].
Qed.

Lemma collect_unconverted_eq root :
  collect_unconverted root = Ok (biography_lines root).
Proof.
  unfold collect_unconverted, biography_lines.
  destruct (find detail_path root) as [d|]; [|reflexivity].
  rewrite findall_descendant.
  change (omap biography_line (iterdescendants (py "data") d))
    with ([] ++ omap biography_line (iterdescendants (py "data") d)).
  generalize (iterdescendants (py "data") d) as l.
  generalize (@nil (list N)) as acc. intros acc l. revert acc.
  induction l as [|e l IH]; intros acc; simpl; [by rewrite app_nil_r|].
  rewrite unconverted_step_eq, bind_Ok, IH, <- app_assoc.
  destruct (biography_line e); reflexivity.
Qed.

End Phases.

(** ** The conversion returns [converted] *)

Ltac record_simpl :=
  cbn [name type system items abilities attributes details spells hp hd
       counter_value counter_max value].

Ltac py_neq :=
  let Heq := fresh in intros Heq; vm_compute in Heq; discriminate Heq.

Ltac not_in_keys :=
  let Hin := fresh in
  intros Hin;
  repeat (apply elem_of_cons in Hin as [Hin|Hin];
          [vm_compute in Hin; discriminate Hin|]);
  by apply elem_of_nil in Hin.

Lemma initial_abilities_keys :
  has_keys ability_keys initial_abilities.
Proof.
  intros k Hk. unfold ability_keys in Hk.
  repeat (apply elem_of_cons in Hk as [->|Hk];
          [vm_compute; eexists; reflexivity|]).
  by apply elem_of_nil in Hk.
Qed.

Lemma initial_spells_keys :
  has_keys (map spell_key levels) initial_spells.
Proof.
  intros k Hk. vm_compute in Hk.
  repeat (apply elem_of_cons in Hk as [->|Hk];
          [vm_compute; eexists; reflexivity|]).
  by apply elem_of_nil in Hk.
Qed.

Lemma trait_fold_lookup l D k :
  k ∉ trait_keys -> fold_left trait_update l D !! k = D !! k.
Proof.
  intros Hk. revert D.
  induction l as [|e l IH]; intros D; simpl; [reflexivity|].
  rewrite IH. unfold trait_update.
  destruct (trait_key_of e) as [k'|] eqn:E; [|reflexivity].
  apply trait_key_of_in in E.
  apply lookup_insert_ne. intros ->. contradiction.
Qed.

Lemma details_biography_initial l a r :
  fold_left trait_update l
    (<[py "race" := DText r]> (<[py "alignment" := DText a]> initial_details))
  !! py "biography" = Some (DBoxed (Box [])).
Proof.
  rewrite trait_fold_lookup by not_in_keys.
  rewrite !lookup_insert_ne by py_neq.
  reflexivity.
Qed.

Theorem convert_eq `{UnicodeData} (root : Element) :
  convert root = Ok (converted root).
Proof.
  unfold convert, converted, initial_json_data.
  rewrite !get_text_eq, !bind_Ok. cbv zeta.
  unfold with_name, set_hd_value, set_detail, with_system, with_attributes,
    with_details. record_simpl.
  rewrite parse_abilities_eq, bind_Ok by apply initial_abilities_keys.
  rewrite parse_hp_eq, !bind_Ok. record_simpl.
  rewrite spell_levels_eq, bind_Ok by apply initial_spells_keys.
  rewrite parse_traits_eq, bind_Ok.
  rewrite parse_items_eq, bind_Ok.
  rewrite collect_unconverted_eq, bind_Ok.
  pose proof (details_biography_initial
                (match find traits_path root with
                 | Some c => iterchildren (py "data") c
                 | None => []
                 end)
                (text_or_empty (find alignment_path root))
                (text_or_empty (find race_path root))) as Hb.
  unfold counter_at.
  destruct (biography_lines root) as [|b bs] eqn:Hlines.
  - simpl join. rewrite (insert_id _ _ _ Hb). reflexivity.
  - unfold set_biography_value. simpl details. rewrite Hb. reflexivity.
Qed.

(** ** Selectors *)

Lemma find_None_findall path root :
  find path root = None <-> findall path root = [].
Proof. unfold find, findall. apply head_None. Qed.

Lemma elem_of_iterchildren t c e :
  e ∈ iterchildren t c <-> e ∈ children c /\ tag e = t.
Proof.
  unfold iterchildren, has_tag.
  rewrite !list_elem_of_In, filter_In, bool_decide_eq_true. reflexivity.
Qed.

Lemma iterchildren_all t c :
  (forall ch, ch ∈ children c -> tag ch = t) -> iterchildren t c = children c.
Proof.
  unfold iterchildren. induction (children c) as [|ch l IH]; intros Hall;
    simpl; [reflexivity|].
  unfold has_tag at 1. rewrite bool_decide_eq_true_2 by (apply Hall; left).
  f_equal. apply IH. intros ch' Hch'. apply Hall. by right.
Qed.

(** What a path of the shape [.//t1[@k1='v1']/t2[@k2='v2']] selects. *)
Lemma elem_of_findall_nested t1 k1 v1 t2 k2 v2 root e :
  e ∈ findall [Self; Descendant t1; AttrEq k1 v1; Child t2; AttrEq k2 v2] root
  <-> exists c,
        c ∈ iterdescendants t1 root /\ get c k1 = Some v1
        /\ e ∈ iterchildren t2 c /\ get e k2 = Some v2.
Proof.
  unfold findall, iterfind. simpl. rewrite app_nil_r.
  rewrite list_elem_of_In, filter_In, in_flat_map, bool_decide_eq_true.
  split.
  - intros [(c & Hc & He) Hv]. exists c.
    apply filter_In in Hc as [Hc Hk]. apply bool_decide_eq_true in Hk.
    rewrite !list_elem_of_In. auto.
  - intros (c & Hc & Hk & He & Hv). split; [|exact Hv].
    exists c. rewrite filter_In, bool_decide_eq_true, <- !list_elem_of_In.
    auto.
Qed.

Lemma find_nested_None t1 k1 v1 t2 k2 v2 root :
  (forall c e, c ∈ iterdescendants t1 root -> get c k1 = Some v1 ->
               e ∈ iterchildren t2 c -> get e k2 <> Some v2) ->
  find [Self; Descendant t1; AttrEq k1 v1; Child t2; AttrEq k2 v2] root = None.
Proof.
  intros Hno. apply find_None_findall.
  destruct (findall _ root) as [|e l] eqn:E; [reflexivity|].
  assert (He : e ∈ findall
            [Self; Descendant t1; AttrEq k1 v1; Child t2; AttrEq k2 v2] root)
    by (rewrite E; left).
  apply elem_of_findall_nested in He as (c & Hc & Hk & He & Hv).
  destruct (Hno c e Hc Hk He Hv).
Qed.

(** ** Finite maps filled by a loop *)

Lemma fold_update_lookup {E V} (key : E -> option (list N)) (val : E -> V)
    (l : list E) (m : gmap (list N) V) (k : list N) :
  fold_left (fun m e => match key e with
                        | Some k' => <[k' := val e]> m
                        | None => m
                        end) l m !! k
  = match last (filter (fun e => key e = Some k) l) with
    | Some e => Some (val e)
    | None => m !! k
    end.
Proof.
  induction l as [|e l IH] using rev_ind; [reflexivity|].
  rewrite fold_left_app, filter_app. simpl.
  destruct (key e) as [k'|] eqn:Hk.
  - destruct (decide (k' = k)) as [->|Hne].
    + rewrite lookup_insert_eq, filter_cons_True, filter_nil by done.
      by rewrite last_snoc.
    + rewrite lookup_insert_ne, filter_cons_False, filter_nil by congruence.
      by rewrite app_nil_r.
  - rewrite filter_cons_False, filter_nil, app_nil_r by congruence. exact IH.
Qed.

Lemma fold_keyed_other {E V} (kf : E -> list N) (upd : E -> option V)
    (l : list E) (m : gmap (list N) V) (k : list N) :
  k ∉ map kf l ->
  fold_left (fun m e => match upd e with
                        | Some v => <[kf e := v]> m
                        | None => m
                        end) l m !! k = m !! k.
Proof.
  revert m. induction l as [|e l IH]; intros m Hk; simpl; [reflexivity|].
  simpl in Hk. apply not_elem_of_cons in Hk as [Hne Hk].
  rewrite IH by exact Hk.
  destruct (upd e); [by apply lookup_insert_ne | reflexivity].
Qed.

Lemma fold_keyed_lookup {E V} (kf : E -> list N) (upd : E -> option V)
    (l : list E) (m : gmap (list N) V) (x : E) :
  NoDup (map kf l) -> x ∈ l ->
  fold_left (fun m e => match upd e with
                        | Some v => <[kf e := v]> m
                        | None => m
                        end) l m !! kf x
  = match upd x with
    | Some v => Some v
    | None => m !! kf x
    end.
Proof.
  revert m. induction l as [|e l IH]; intros m Hnd Hx; simpl.
  - by apply elem_of_nil in Hx.
  - simpl in Hnd. apply NoDup_cons in Hnd as [Hfresh Hnd].
    apply elem_of_cons in Hx as [->|Hx].
    + rewrite fold_keyed_other by exact Hfresh.
      destruct (upd e); [apply lookup_insert_eq | reflexivity].
    + rewrite IH by assumption.
      destruct (upd x); [reflexivity|].
      destruct (upd e); [|reflexivity].
      apply lookup_insert_ne. intros Heq. apply Hfresh. rewrite Heq.
      apply list_elem_of_In, in_map, list_elem_of_In, Hx.
Qed.

(** ** The fields of [converted] *)

Lemma levels_range l : l ∈ levels <-> 1 <= l <= 9.
Proof. unfold levels. rewrite elem_of_seqZ. lia. Qed.

Lemma spell_keys_NoDup : NoDup (map spell_key levels).
Proof. apply (bool_decide_unpack _). vm_compute. exact I. Qed.

Lemma spell_keys_literal :
  map spell_key levels
  = [py "spell1"; py "spell2"; py "spell3"; py "spell4"; py "spell5";
     py "spell6"; py "spell7"; py "spell8"; py "spell9"].
Proof. reflexivity. Qed.

Lemma level_names_literal :
  map xml_level_name levels
  = [py "LV1"; py "LV2"; py "LV3"; py "LV4"; py "LV5";
     py "LV6"; py "LV7"; py "LV8"; py "LV9"].
Proof. reflexivity. Qed.

Lemma initial_abilities_lookup k :
  k ∈ ability_keys -> initial_abilities !! k = Some (Box 0).
Proof.
  intros Hk. unfold ability_keys in Hk.
  repeat (apply elem_of_cons in Hk as [->|Hk]; [vm_compute; reflexivity|]).
  by apply elem_of_nil in Hk.
Qed.

Lemma initial_spells_lookup l :
  l ∈ levels -> initial_spells !! spell_key l = Some (Counter 0 0).
Proof.
  intros Hl. vm_compute in Hl.
  repeat (apply elem_of_cons in Hl as [->|Hl]; [vm_compute; reflexivity|]).
  by apply elem_of_nil in Hl.
Qed.

Section Fields.
Context `{UnicodeData}.

Lemma converted_abilities root k :
  k ∈ ability_keys ->
  abilities (system (converted root)) !! k
  = Some (Box (match last (ability_nodes k root) with
               | Some e => int_or_zero (text e)
               | None => 0
               end)).
Proof.
  intros Hk. unfold converted, ability_nodes. record_simpl.
  etransitivity;
    [apply (fold_update_lookup ability_key_of
              (fun e => Box (int_or_zero (text e))))|].
  destruct (last _); [reflexivity|].
  by apply initial_abilities_lookup.
Qed.

Lemma converted_spells root l :
  l ∈ levels ->
  spells (system (converted root)) !! spell_key l
  = Some (counter_at (slot_path l) root).
Proof.
  intros Hl. unfold converted, counter_at. record_simpl.
  etransitivity;
    [apply (fold_keyed_lookup spell_key (slot_counter root));
       [apply spell_keys_NoDup | exact Hl]|].
  unfold slot_counter.
  destruct (find (slot_path l) root); simpl; [reflexivity|].
  by apply initial_spells_lookup.
Qed.

Lemma converted_detail root k :
  k ∉ trait_keys -> k <> py "biography" ->
  details (system (converted root)) !! k
  = <[py "race" := DText (text_or_empty (find race_path root))]>
      (<[py "alignment" := DText (text_or_empty (find alignment_path root))]>
         initial_details) !! k.
Proof.
  intros Hk Hb. unfold converted. record_simpl.
  rewrite lookup_insert_ne by congruence.
  by apply trait_fold_lookup.
Qed.

Lemma converted_biography root :
  details (system (converted root)) !! py "biography"
  = Some (DBoxed (Box (join newline (biography_lines root)))).
Proof. unfold converted. record_simpl. apply lookup_insert_eq. Qed.

End Fields.

(** ** The mapping, field by field *)

Lemma elem_of_findall_children t1 k v t2 root e :
  e ∈ findall [Self; Descendant t1; AttrEq k v; Child t2] root
  <-> exists c,
        c ∈ iterdescendants t1 root /\ get c k = Some v
        /\ e ∈ iterchildren t2 c.
Proof.
  unfold findall, iterfind. simpl. rewrite app_nil_r.
  rewrite list_elem_of_In, in_flat_map.
  split.
  - intros (c & Hc & He). exists c.
    apply filter_In in Hc as [Hc Hk]. apply bool_decide_eq_true in Hk.
    rewrite !list_elem_of_In. auto.
  - intros (c & Hc & Hk & He).
    exists c. rewrite filter_In, bool_decide_eq_true, <- !list_elem_of_In.
    auto.
Qed.

Lemma ability_key_of_mapping e k :
  ability_key_of e = Some k <-> ability_mapping !! ability_name_jp e = Some k.
Proof.
  unfold ability_key_of.
  destruct (ability_mapping !! ability_name_jp e) as [k'|] eqn:E; simpl;
    [|done].
  apply ability_mapping_values in E as [_ ->]. done.
Qed.

Lemma int_or_zero_failure `{UnicodeData} v :
  (forall n, PyInt.int (strip v) <> Ok n) -> int_or_zero (Some v) = 0.
Proof.
  intros Hv. unfold int_or_zero.
  destruct (PyInt.int (strip v)) as [n|]; [by destruct (Hv n) | reflexivity].
Qed.


(** C8.  The text helper never raises and returns the node's text trimmed
    of surrounding whitespace (a run of whitespace removed at each end,
    up to the first and the last character that is not whitespace): the
    empty string for a missing element, for a node without text and for a
    whitespace-only text.  The character name, the hit dice, the alignment
    and the race of the returned record are the helper's result on the node
    found for each; with no name node, or one without text, the name is the
    empty string. *)
Theorem text_fields_trimmed `{UnicodeData} (root : Element) :
  (forall elem, get_text elem = Ok (text_or_empty elem))
  /\ get_text None = Ok []
  /\ (forall e, text e = None -> get_text (Some e) = Ok [])
  /\ (forall e t, text e = Some t -> get_text (Some e) = Ok (strip t))
  /\ (forall e t, text e = Some t -> forallb isspace t = true ->
                  get_text (Some e) = Ok [])
  /\ (forall t, exists l r,
        t = l ++ strip t ++ r
        /\ forallb isspace l = true /\ forallb isspace r = true
        /\ (forall c, head (strip t) = Some c -> isspace c = false)
        /\ (forall c, last (strip t) = Some c -> isspace c = false))
  /\ exists j,
       convert root = Ok j
       /\ name j = text_or_empty (find name_path root)
       /\ hd (attributes (system j))
          = Box (text_or_empty (find hit_dice_path root))
       /\ details (system j) !! py "alignment"
          = Some (DText (text_or_empty (find alignment_path root)))
       /\ details (system j) !! py "race"
          = Some (DText (text_or_empty (find race_path root)))
       /\ (find name_path root = None -> name j = [])
       /\ (forall e, find name_path root = Some e -> text e = None ->
                     name j = []).
Proof.
  split; [apply get_text_eq|].
  split; [reflexivity|].
  split; [intros e He; rewrite get_text_eq; unfold text_or_empty;
          by rewrite He|].
  split; [intros e t He; rewrite get_text_eq; unfold text_or_empty;
          by rewrite He|].
  split; [intros e t He Ht; rewrite get_text_eq; unfold text_or_empty;
          by rewrite He, strip_all_space|].
  split; [intros t; destruct (strip_decompose t) as (l & r & Ht & Hl & Hr);
          exists l, r; repeat split; try done; apply strip_ends|].
  exists (converted root). split; [apply convert_eq|].
  split; [reflexivity|]. split; [reflexivity|].
  split; [|split; [|split]].
  - rewrite converted_detail by (not_in_keys || py_neq).
    rewrite lookup_insert_ne by py_neq. apply lookup_insert_eq.
  - rewrite converted_detail by (not_in_keys || py_neq).
    apply lookup_insert_eq.
  - intros Hn. unfold converted. record_simpl. by rewrite Hn.
  - intros e Hn He. unfold converted. record_simpl. rewrite Hn.
    unfold text_or_empty. by rewrite He.
Qed.

(** C5.  The hit points of the returned record are read from the hit-point
    node: the current value from its [currentValue] attribute and the
    maximum from its text, each 0 when absent or not numeric, and both 0
    when there is no such node.  A node with [currentValue="7"] and text
    "10" gives value 7 and max 10. *)
Theorem hit_points_mapping `{UnicodeData} (root : Element) :
  exists j,
    convert root = Ok j
    /\ hp (attributes (system j))
       = match find hp_path root with
         | Some e => Counter (int_or_zero (get e (py "currentValue")))
                             (int_or_zero (text e))
         | None => Counter 0 0
         end
    /\ (forall e, find hp_path root = Some e ->
                  get e (py "currentValue") = Some (py "7") ->
                  text e = Some (py "10") ->
                  hp (attributes (system j)) = Counter 7 10)
    /\ int_or_zero None = 0
    /\ (forall v, (forall n, PyInt.int (strip v) <> Ok n) ->
                  int_or_zero (Some v) = 0).
Proof.
  exists (converted root). split; [apply convert_eq|].
  split; [reflexivity|]. split; [|split].
  - intros e Hf Hc Ht. unfold converted, counter_at. record_simpl.
    rewrite Hf. unfold counter_of. rewrite Hc, Ht. reflexivity.
  - reflexivity.
  - apply int_or_zero_failure.
Qed.

(** C6.  Every ability node (a [data] child of a [data] node named 能力値) is
    mapped through the six-entry table on its label with the brackets
    removed: in the returned record each of the six keys holds the integer
    value of the last node mapped to it, or 0 when there is none.  A node
    whose label is not in the table leaves the record as it is and raises
    nothing; the label 【筋力】 maps to the key [str]. *)
Theorem abilities_by_label `{UnicodeData} (root : Element) :
  (exists j,
     convert root = Ok j
     /\ forall k, k ∈ ability_keys ->
          abilities (system j) !! k
          = Some (Box (match last (ability_nodes k root) with
                       | Some e => int_or_zero (text e)
                       | None => 0
                       end)))
  /\ (forall e j, ability_mapping !! ability_name_jp e = None ->
                  parse_abilities_step e j = Ok j)
  /\ (forall e k, ability_key_of e = Some k
                  <-> ability_mapping !! ability_name_jp e = Some k)
  /\ (forall e, get e (py "name") = Some (py "【筋力】") ->
                ability_key_of e = Some (py "str"))
  /\ (forall e, e ∈ findall abilities_path root
                <-> exists c,
                      c ∈ iterdescendants (py "data") root
                      /\ get c (py "name") = Some (py "能力値")
                      /\ e ∈ iterchildren (py "data") c)
  /\ size ability_mapping = 6%nat.
Proof.
  split; [|split; [|split; [|split; [|split]]]].
  - exists (converted root). split; [apply convert_eq|].
    intros k Hk. by apply converted_abilities.
  - intros e j He. unfold parse_abilities_step. by rewrite He.
  - apply ability_key_of_mapping.
  - intros e He. unfold ability_key_of, ability_name_jp, get_default.
    rewrite He. reflexivity.
  - intros e. apply elem_of_findall_children.
  - reflexivity.
Qed.

(** C7.  For every level from 1 to 9 the entry [spell] + level of the
    returned record is read from the slot node (the [data] child named
    スロット of a [data] node named [LV] + level): the current value from its
    [currentValue] attribute, the maximum from its text.  Both are 0 when
    no container of that name has a slot node. *)
Theorem spell_slots_by_level `{UnicodeData} (root : Element) :
  exists j,
    convert root = Ok j
    /\ forall l, 1 <= l <= 9 ->
         spells (system j) !! spell_key l
         = Some (match find (slot_path l) root with
                 | Some e => Counter (int_or_zero (get e (py "currentValue")))
                                     (int_or_zero (text e))
                 | None => Counter 0 0
                 end)
         /\ ((forall c e,
                c ∈ iterdescendants (py "data") root ->
                get c (py "name") = Some (xml_level_name l) ->
                e ∈ iterchildren (py "data") c ->
                get e (py "name") <> Some (py "スロット")) ->
             spells (system j) !! spell_key l = Some (Counter 0 0)).
Proof.
  exists (converted root). split; [apply convert_eq|].
  intros l Hl. apply levels_range in Hl.
  rewrite converted_spells by exact Hl. split; [reflexivity|].
  intros Hno. unfold counter_at, slot_path.
  by rewrite find_nested_None.
Qed.

Lemma biography_line_example e :
  get e (py "name") = Some (py "Foo") -> text e = Some (py "X") ->
  biography_line e = Some (py "Foo: X").
Proof. intros Hn Ht. unfold biography_line. rewrite Hn, Ht. reflexivity. Qed.

(** C3, as amended.  The biography of the returned record is the
    newline-separated join, in document order, of one line for each [data]
    node below the first [data] node named [detail] whose name is present,
    not empty and not in the skip set and whose text is not empty before
    trimming; the line is the name, a colon and a space, and the text
    trimmed (nothing after the space when the text is whitespace only).  A
    node named Foo with text X gives the line [Foo: X]; a node with no
    name or no text gives none. *)
Theorem biography_lines_joined `{UnicodeData} (root : Element) :
  (exists j,
     convert root = Ok j
     /\ details (system j) !! py "biography"
        = Some (DBoxed (Box (join newline
             match find detail_path root with
             | Some d => omap biography_line (iterdescendants (py "data") d)
             | None => []
             end))))
  /\ (forall e, get e (py "name") = Some (py "Foo") ->
                text e = Some (py "X") ->
                biography_line e = Some (py "Foo: X"))
  /\ (forall e, get e (py "name") = None -> biography_line e = None)
  /\ (forall e, text e = None -> biography_line e = None)
  /\ (forall e n t,
        get e (py "name") = Some n -> text e = Some t ->
        n <> [] -> n ∉ skip_names -> t <> [] ->
        biography_line e = Some (n ++ py ": " ++ strip t)).
Proof.
  split; [|split; [|split; [|split]]].
  - exists (converted root). split; [apply convert_eq|].
    apply converted_biography.
  - apply biography_line_example.
  - intros e Hn. unfold biography_line. by rewrite Hn.
  - intros e Ht. unfold biography_line. rewrite Ht.
    by destruct (get e (py "name")).
  - intros e n t Hn Ht Hne Hskip Hte. unfold biography_line.
    rewrite Hn, Ht, bool_decide_eq_false_2 by exact Hskip.
    destruct n; [done|]. destruct t; [done|]. reflexivity.
Qed.

(** C3, the claim as worded fails.  A node named Foo whose text is one
    space is neither skipped nor given a line with its text as written: the
    biography is "Foo: ", while the claim gives no line when the text is
    read trimmed and "Foo:  " when it is read as written. *)
Lemma biography_blank_text_counterexample :
  biography_of (@convert ascii_digits blank_text_sheet) = Some (py "Foo: ")
  /\ claimed_biography trimmed_text blank_text_sheet = []
  /\ claimed_biography verbatim_text blank_text_sheet = py "Foo:  "
  /\ biography_of (@convert ascii_digits blank_text_sheet)
     <> Some (claimed_biography trimmed_text blank_text_sheet)
  /\ biography_of (@convert ascii_digits blank_text_sheet)
     <> Some (claimed_biography verbatim_text blank_text_sheet).
Proof. vm_compute. repeat split; discriminate. Qed.

(** C9.  The items of the returned record are the records of the [data]
    children of the inventory container (the first [data] node named
    アイテム), one each and in document order: the child's [name] attribute,
    the type [item] and the child's trimmed text.  When every child of the
    container is a [data] node that is one record per child; two such
    children give a list of length 2. *)
Theorem items_one_per_child `{UnicodeData} (root : Element) :
  exists j,
    convert root = Ok j
    /\ items j
       = map (fun e => Item (get e (py "name")) (py "item")
                         (ItemSystem (Box (text_or_empty (Some e)))))
             (match find items_path root with
              | Some c => iterchildren (py "data") c
              | None => []
              end)
    /\ (forall c, find items_path root = Some c ->
                  (forall ch, ch ∈ children c -> tag ch = py "data") ->
                  items j = map item_record (children c)
                  /\ length (items j) = length (children c))
    /\ (forall c a b, find items_path root = Some c ->
                      children c = [a; b] ->
                      tag a = py "data" -> tag b = py "data" ->
                      items j = [item_record a; item_record b]).
Proof.
  exists (converted root). split; [apply convert_eq|].
  split; [reflexivity|]. split.
  - intros c Hc Hall. unfold converted, item_nodes. record_simpl.
    rewrite Hc, iterchildren_all by exact Hall.
    split; [reflexivity | apply length_map].
  - intros c a b Hc Hch Ha Hb. unfold converted, item_nodes. record_simpl.
    rewrite Hc, iterchildren_all; [by rewrite Hch|].
    intros ch. rewrite Hch. intros Hin.
    apply elem_of_cons in Hin as [->|Hin]; [exact Ha|].
    apply elem_of_cons in Hin as [->|Hin]; [exact Hb|].
    by apply elem_of_nil in Hin.
Qed.

(** C10.  A [data] child of the inventory container without a [name]
    attribute still gets its record in the items list, and the name of that
    record is [None], not the empty string; the character name of the same
    record falls back to the empty string when its node is missing. *)
Theorem nameless_item_has_null_name `{UnicodeData} (root : Element) :
  exists j,
    convert root = Ok j
    /\ length (items j) = length (item_nodes root)
    /\ (forall e, e ∈ item_nodes root -> get e (py "name") = None ->
          exists it,
            it ∈ items j
            /\ item_name it = None
            /\ it = Item None (py "item")
                      (ItemSystem (Box (text_or_empty (Some e)))))
    /\ (find name_path root = None -> name j = []).
Proof.
  exists (converted root). split; [apply convert_eq|].
  split; [apply length_map|]. split.
  - intros e He Hn. exists (item_record e). split; [|split].
    + unfold converted. record_simpl.
      apply list_elem_of_In, in_map, list_elem_of_In, He.
    + exact Hn.
    + unfold item_record. by rewrite Hn.
  - intros Hn. unfold converted. record_simpl. by rewrite Hn.
Qed.

(** C10 on a sheet whose second inventory child has no name. *)
Lemma nameless_item_witness :
  exists j,
    @convert ascii_digits nameless_item_sheet = Ok j
    /\ Item None (py "item") (ItemSystem (Box (py "anon"))) ∈ items j
    /\ length (items j) = 2%nat.
Proof.
  destruct (@nameless_item_has_null_name ascii_digits nameless_item_sheet)
    as (j & Hj & Hlen & Hnull & _).
  exists j. split; [exact Hj|]. split; [|exact Hlen].
  destruct (Hnull (mkElement (py "data") ∅ (Some (py "anon")) []))
    as (it & Hin & _ & ->).
  - vm_compute. right. left.
  - reflexivity.
  - exact Hin.
Defined.

(** C1.  For a well-formed document the conversion raises nothing and
    returns a record, logging no error.  The record has all six ability keys
    and all nine spell keys; an ability key no node is mapped to holds 0, and
    a spell key whose slot node is missing holds 0 and 0. *)
Theorem output_has_all_keys `{XMLParser} `{UnicodeData}
    (xml_string bs : list N) (root : Element) :
  encode_utf8 xml_string = Ok bs ->
  fromstring bs = Ok root ->
  exists j,
    xml_to_fvtt_json xml_string = ([], Some j)
    /\ convert root = Ok j
    /\ (forall k, k ∈ ability_keys -> is_Some (abilities (system j) !! k))
    /\ (forall l, 1 <= l <= 9 -> is_Some (spells (system j) !! spell_key l))
    /\ (forall k, k ∈ ability_keys ->
          (forall e, e ∈ findall abilities_path root ->
                     ability_key_of e <> Some k) ->
          abilities (system j) !! k = Some (Box 0))
    /\ (forall l, 1 <= l <= 9 -> find (slot_path l) root = None ->
          spells (system j) !! spell_key l = Some (Counter 0 0)).
Proof.
  intros Henc Hparse. exists (converted root).
  split; [unfold xml_to_fvtt_json;
          by rewrite Henc, bind_Ok, Hparse, bind_Ok, convert_eq|].
  split; [apply convert_eq|].
  split; [|split; [|split]].
  - intros k Hk. rewrite converted_abilities by exact Hk. eauto.
  - intros l Hl. apply levels_range in Hl.
    rewrite converted_spells by exact Hl. eauto.
  - intros k Hk Hno. rewrite converted_abilities by exact Hk.
    unfold ability_nodes.
    destruct (last _) as [e|] eqn:Hlast; [|reflexivity].
    apply last_Some_elem_of, list_elem_of_filter in Hlast as [He Hin].
    destruct (Hno e Hin He).
  - intros l Hl Hno. apply levels_range in Hl.
    rewrite converted_spells by exact Hl. unfold counter_at. by rewrite Hno.
Qed.

(** C1 on the sample markup. *)
Lemma output_has_all_keys_witness :
  exists j,
    @xml_to_fvtt_json sample_parser ascii_digits sample_markup = ([], Some j)
    /\ (forall k, k ∈ ability_keys -> is_Some (abilities (system j) !! k))
    /\ (forall l, 1 <= l <= 9 -> is_Some (spells (system j) !! spell_key l)).
Proof.
  destruct (@output_has_all_keys sample_parser ascii_digits sample_markup
              _ _ eq_refl eq_refl)
    as (j & Hj & _ & Habilities & Hspells & _).
  exists j. auto.
Defined.

(** C2.  Markup the parser rejects as not well formed makes the conversion
    log the XML syntax error and return [None]: no record is returned.  More
    generally, no record is returned unless the input parses. *)
Theorem malformed_input_fails `{XMLParser} `{UnicodeData}
    (xml_string : list N) :
  (malformed xml_string ->
   xml_to_fvtt_json xml_string = ([XmlSyntaxLogged], None))
  /\ ((forall root, ~ well_formed xml_string root) ->
      (xml_to_fvtt_json xml_string).2 = None).
Proof.
  split.
  - intros (bs & Henc & Hparse). unfold xml_to_fvtt_json.
    by rewrite Henc, bind_Ok, Hparse.
  - intros Hno. unfold xml_to_fvtt_json.
    destruct (encode_utf8 xml_string) as [bs|e] eqn:Henc;
      [|by destruct e].
    rewrite bind_Ok.
    destruct (fromstring bs) as [root|e] eqn:Hparse; [|by destruct e].
    destruct (Hno root). by exists bs.
Qed.

(** C2 on markup with an unclosed tag. *)
Lemma malformed_input_witness :
  @xml_to_fvtt_json sample_parser ascii_digits unclosed_markup
  = ([XmlSyntaxLogged], None).
Proof.
  apply (proj1 (@malformed_input_fails sample_parser ascii_digits
                  unclosed_markup)).
  eexists. split; reflexivity.
Defined.

(** ** Sample runs *)

Example py_literals :
  py "LV" = [76; 86]%N
  /\ py "【筋力】" = [12304; 31563; 21147; 12305]%N
  /\ str_of_Z 7 = py "7" /\ str_of_Z 10 = py "10".
Proof. repeat split. Qed.

Example strip_example : strip (py "  Foo bar　") = py "Foo bar".
Proof. reflexivity. Qed.

Example replace_example :
  replace (py "】") [] (replace (py "【") [] (py "【筋力】")) = py "筋力".
Proof. reflexivity. Qed.

Example int_examples :
  @PyInt.int ascii_digits (py "15") = Ok 15
  /\ @PyInt.int ascii_digits (py "-1_000") = Ok (-1000)
  /\ @PyInt.int ascii_digits (py "+007") = Ok 7
  /\ @PyInt.int ascii_digits (py "1__0") = Raise ValueError
  /\ @PyInt.int ascii_digits (py "1 2") = Raise ValueError
  /\ @PyInt.int ascii_digits (py "0x10") = Raise ValueError
  /\ @PyInt.int ascii_digits (py "1.5") = Raise ValueError
  /\ @PyInt.int ascii_digits (py "") = Raise ValueError.
Proof. repeat split. Qed.

Example int_unicode_examples :
  @PyInt.int arabic_indic_digits (py "　١٥ ") = Ok 15
  /\ @PyInt.int ascii_digits (py "١٥") = Raise ValueError
  /\ @PyInt.int ascii_digits (py " 12 ") = Ok 12
  /\ @PyInt.int ascii_digits [28; 53]%N = Raise ValueError.
Proof. repeat split. Qed.

Example encode_examples :
  encode_utf8 (py "【a") = Ok [227; 128; 144; 97]%N
  /\ encode_utf8 [55296%N] = Raise UnicodeEncodeError.
Proof. repeat split. Qed.

Example sample_sheet_converted :
  match @convert ascii_digits sample_sheet with
  | Ok j =>
    name j = py "Alice"
    /\ type j = py "character"
    /\ map (fun k => abilities (system j) !! k) ability_keys
       = [Some (Box 15); Some (Box 0); Some (Box 0);
          Some (Box 0); Some (Box 0); Some (Box 0)]
    /\ hp (attributes (system j)) = Counter 7 10
    /\ spells (system j) !! py "spell3" = Some (Counter 2 4)
    /\ spells (system j) !! py "spell1" = Some (Counter 0 0)
    /\ items j
       = [Item (Some (py "sword")) (py "item") (ItemSystem (Box (py "sharp")));
          Item (Some (py "rope")) (py "item") (ItemSystem (Box (py "50 ft")))]
    /\ details (system j) !! py "biography"
       = Some (DBoxed (Box (join newline
           [py "【筋力】: 15"; py "敏捷力: abc"; py "幸運: 9"; py "スロット: 4";
            py "sword: sharp"; py "rope: 50 ft"; py "Foo: X"])))
  | Raise _ => False
  end.
Proof. vm_compute. repeat split. Qed.

Example nameless_item_sheet_converted :
  match @convert ascii_digits nameless_item_sheet with
  | Ok j =>
    items j
    = [Item (Some (py "sword")) (py "item") (ItemSystem (Box (py "sharp")));
       Item None (py "item") (ItemSystem (Box (py "anon")))]
  | Raise _ => False
  end.
Proof. vm_compute. reflexivity. Qed.

(** The inventory loop is [findall("data")]: a child with another tag is
    not an item. *)
Example other_tags_are_not_items :
  match @convert ascii_digits mixed_children_sheet with
  | Ok j =>
    items j
    = [Item (Some (py "sword")) (py "item") (ItemSystem (Box (py "sharp")))]
  | Raise _ => False
  end.
Proof. vm_compute. reflexivity. Qed.

(** A string that cannot be encoded never reaches the parser. *)
Example lone_surrogate_is_unexpected :
  @xml_to_fvtt_json sample_parser ascii_digits [55296%N]
  = ([UnexpectedLogged], None).
Proof. reflexivity. Qed.

(** ** Beyond the mapping of single fields *)

Ltac in_list :=
  repeat first [apply list_elem_of_here | apply list_elem_of_further].

Lemma trait_key_of_mapping e k :
  trait_key_of e = Some k
  <-> exists n, get e (py "name") = Some n /\ traits_mapping !! n = Some k.
Proof.
  unfold trait_key_of. split.
  - destruct (get e (py "name")) as [n|]; simpl; [|discriminate].
    destruct (traits_mapping !! n) as [k'|] eqn:E; simpl; [|discriminate].
    pose proof (traits_mapping_values _ _ E) as [_ Ht]. rewrite Ht.
    intros [= <-]. eauto.
  - intros (n & -> & E). simpl. rewrite E. simpl.
    apply traits_mapping_values in E as [_ ->]. reflexivity.
Qed.

Lemma parse_traits_total root j :
  parse_traits root j
  = Ok (JsonData (name j) (type j)
          (System (abilities (system j)) (attributes (system j))
             (fold_left trait_update
                (match find traits_path root with
                 | Some c => iterchildren (py "data") c
                 | None => []
                 end) (details (system j)))
             (spells (system j)))
          (items j)).
Proof. destruct j as [n t [A att D S] I]. apply parse_traits_eq. Qed.

Lemma trait_fold_lookup_key l D k :
  fold_left trait_update l D !! k
  = match last (filter (fun e => trait_key_of e = Some k) l) with
    | Some e => Some (DText (text_or_empty (Some e)))
    | None => D !! k
    end.
Proof.
  apply (fold_update_lookup trait_key_of
           (fun e => DText (text_or_empty (Some e)))).
Qed.

(** X1.  [parse_traits] never raises and changes nothing but the details:
    each of the keys ideal, trait, bond and flaw gets the trimmed text of the
    last [data] child of the first traits container whose name the table
    maps to it, a key no child is mapped to keeps what it held, and every
    other key of the details is left alone.  In the converted record a trait
    key no child is mapped to is absent. *)
Theorem parse_traits_by_name `{UnicodeData} (root : Element) :
  (forall j, exists j',
     parse_traits root j = Ok j'
     /\ name j' = name j /\ type j' = type j /\ items j' = items j
     /\ abilities (system j') = abilities (system j)
     /\ attributes (system j') = attributes (system j)
     /\ spells (system j') = spells (system j)
     /\ (forall k,
           details (system j') !! k
           = match last (trait_nodes k root) with
             | Some e => Some (DText (text_or_empty (Some e)))
             | None => details (system j) !! k
             end)
     /\ (forall k, k ∉ trait_keys ->
                   details (system j') !! k = details (system j) !! k))
  /\ (forall e k,
        trait_key_of e = Some k
        <-> exists n, get e (py "name") = Some n
                      /\ traits_mapping !! n = Some k)
  /\ exists j,
       convert root = Ok j
       /\ forall k, k ∈ trait_keys ->
            details (system j) !! k
            = match last (trait_nodes k root) with
              | Some e => Some (DText (text_or_empty (Some e)))
              | None => None
              end.
Proof.
  split; [|split; [apply trait_key_of_mapping|]].
  - intros j. eexists. split; [apply parse_traits_total|].
    record_simpl. repeat (split; [reflexivity|]). split.
    + intros k. apply trait_fold_lookup_key.
    + intros k Hk. by apply trait_fold_lookup.
  - exists (converted root). split; [apply convert_eq|].
    intros k Hk. unfold converted, trait_nodes. record_simpl.
    assert (Hne : py "biography" <> k).
    { intros <-. revert Hk. not_in_keys. }
    rewrite lookup_insert_ne by exact Hne.
    rewrite trait_fold_lookup_key. destruct (last _); [reflexivity|].
    unfold trait_keys in Hk.
    repeat (apply elem_of_cons in Hk as [->|Hk];
            [rewrite !lookup_insert_ne by py_neq; reflexivity|]).
    by apply elem_of_nil in Hk.
Qed.

Lemma initial_abilities_dom k v :
  initial_abilities !! k = Some v -> k ∈ ability_keys.
Proof.
  intros Hk. apply elem_of_list_to_map_2 in Hk.
  apply list_elem_of_In, in_map_iff in Hk as (k' & [= <- _] & Hin).
  by apply list_elem_of_In.
Qed.

Lemma initial_spells_dom k v :
  initial_spells !! k = Some v -> k ∈ map spell_key levels.
Proof.
  intros Hk. apply elem_of_list_to_map_2 in Hk.
  apply list_elem_of_In, in_map_iff in Hk as (l & [= <- _] & Hin).
  by apply list_elem_of_In, in_map.
Qed.

Lemma initial_details_dom k v :
  initial_details !! k = Some v -> k ∈ detail_keys.
Proof.
  intros Hk. apply elem_of_list_to_map_2 in Hk. unfold detail_keys.
  repeat (apply elem_of_cons in Hk as [Hk|Hk];
          [injection Hk as -> _; in_list|]).
  by apply elem_of_nil in Hk.
Qed.

Lemma ability_fold_lookup `{UnicodeData} l A k :
  fold_left ability_update l A !! k
  = match last (filter (fun e => ability_key_of e = Some k) l) with
    | Some e => Some (Box (int_or_zero (text e)))
    | None => A !! k
    end.
Proof.
  apply (fold_update_lookup ability_key_of
           (fun e => Box (int_or_zero (text e)))).
Qed.

Lemma spell_fold_other `{UnicodeData} root ls S k :
  k ∉ map spell_key ls -> fold_left (spell_update root) ls S !! k = S !! k.
Proof. apply (fold_keyed_other spell_key (slot_counter root)). Qed.

(** X2.  The key sets of the returned record are fixed: the abilities hold
    the six ability keys and no other, the spells hold spell1 to spell9 and
    no other, and the details hold alignment, race and biography and, besides
    them, at most the four trait keys.  No document adds or removes a key. *)
Theorem output_key_sets `{UnicodeData} (root : Element) :
  exists j,
    convert root = Ok j
    /\ (forall k, is_Some (abilities (system j) !! k) <-> k ∈ ability_keys)
    /\ (forall k, is_Some (spells (system j) !! k)
                  <-> k ∈ map spell_key levels)
    /\ (forall k, is_Some (details (system j) !! k) -> k ∈ detail_keys)
    /\ (forall k, k ∈ [py "alignment"; py "race"; py "biography"] ->
                  is_Some (details (system j) !! k)).
Proof.
  exists (converted root). split; [apply convert_eq|].
  split; [|split; [|split]].
  - intros k. split.
    + unfold converted. record_simpl.
      rewrite ability_fold_lookup.
      destruct (last _) as [e|] eqn:Hlast.
      * intros _. apply last_Some_elem_of, list_elem_of_filter in Hlast.
        destruct Hlast as [He _]. by apply ability_key_of_in in He.
      * intros [v Hv]. by apply initial_abilities_dom in Hv.
    + intros Hk. rewrite converted_abilities by exact Hk. eauto.
  - intros k. split.
    + unfold converted. record_simpl. intros Hsome.
      destruct (decide (k ∈ map spell_key levels)) as [Hin|Hout];
        [exact Hin|].
      rewrite spell_fold_other in Hsome by exact Hout.
      destruct Hsome as [v Hv]. by apply initial_spells_dom in Hv.
    + intros Hk. apply list_elem_of_In, in_map_iff in Hk as (l & <- & Hl).
      apply list_elem_of_In in Hl.
      rewrite converted_spells by exact Hl. eauto.
  - intros k. unfold converted. record_simpl.
    destruct (decide (py "biography" = k)) as [<-|Hne];
      [intros _; unfold detail_keys; in_list|].
    rewrite lookup_insert_ne by exact Hne.
    rewrite trait_fold_lookup_key.
    destruct (last _) as [e|] eqn:Hlast.
    + intros _. apply last_Some_elem_of, list_elem_of_filter in Hlast.
      destruct Hlast as [He _]. apply trait_key_of_in in He.
      unfold trait_keys in He. unfold detail_keys.
      repeat (apply elem_of_cons in He as [->|He]; [in_list|]).
      by apply elem_of_nil in He.
    + destruct (decide (py "race" = k)) as [<-|Hr];
        [intros _; unfold detail_keys; in_list|].
      rewrite lookup_insert_ne by exact Hr.
      destruct (decide (py "alignment" = k)) as [<-|Ha];
        [intros _; unfold detail_keys; in_list|].
      rewrite lookup_insert_ne by exact Ha.
      intros [v Hv]. by apply initial_details_dom in Hv.
  - intros k Hk.
    apply elem_of_cons in Hk as [->|Hk];
      [|apply elem_of_cons in Hk as [->|Hk];
        [|apply elem_of_cons in Hk as [->|Hk];
          [|by apply elem_of_nil in Hk]]].
    + rewrite converted_detail by (not_in_keys || py_neq).
      rewrite lookup_insert_ne by py_neq. rewrite lookup_insert_eq. eauto.
    + rewrite converted_detail by (not_in_keys || py_neq).
      rewrite lookup_insert_eq. eauto.
    + rewrite converted_biography. eauto.
Qed.

Lemma bind_Raise_eq {A B} (e : exn) (f : A -> result B) :
  (Raise e ≫= f) = Raise e.
Proof. reflexivity. Qed.

Lemma encode_char_raises c e :
  encode_char c = Raise e -> e = UnicodeEncodeError /\ surrogate c.
Proof.
  unfold encode_char, surrogate.
  destruct (N.ltb_spec c 128); [discriminate|].
  destruct (N.ltb_spec c 2048); [discriminate|].
  destruct (N.leb_spec 55296 c), (N.leb_spec c 57343); simpl;
    try (destruct (N.ltb_spec c 65536); discriminate).
  intros [= <-]. split; [reflexivity | lia].
Qed.

Lemma encode_char_surrogate c :
  surrogate c -> encode_char c = Raise UnicodeEncodeError.
Proof.
  unfold encode_char, surrogate. intros Hc.
  destruct (N.ltb_spec c 128); [lia|].
  destruct (N.ltb_spec c 2048); [lia|].
  destruct (N.leb_spec 55296 c); [|lia].
  destruct (N.leb_spec c 57343); [|lia]. reflexivity.
Qed.

Lemma encode_utf8_raises s e :
  encode_utf8 s = Raise e ->
  e = UnicodeEncodeError /\ exists c, c ∈ s /\ surrogate c.
Proof.
  induction s as [|c s IH]; simpl; [discriminate|].
  destruct (encode_char c) as [b|e'] eqn:Hc; simpl.
  - destruct (encode_utf8 s) as [bs|e''] eqn:Hs; simpl; [discriminate|].
    intros [= <-]. destruct (IH eq_refl) as (-> & c' & Hin & Hsur).
    split; [reflexivity|]. exists c'. split; [by right | exact Hsur].
  - intros [= <-]. apply encode_char_raises in Hc as [-> Hsur].
    split; [reflexivity|]. exists c. split; [left | exact Hsur].
Qed.

Lemma encode_utf8_surrogate s c :
  c ∈ s -> surrogate c -> encode_utf8 s = Raise UnicodeEncodeError.
Proof.
  intros Hin Hsur. induction s as [|a s IH]; [by apply elem_of_nil in Hin|].
  simpl. apply elem_of_cons in Hin as [<-|Hin].
  - by rewrite encode_char_surrogate.
  - destruct (encode_char a) as [b|e] eqn:Ha; simpl.
    + by rewrite IH.
    + apply encode_char_raises in Ha as [-> _]. reflexivity.
Qed.

Lemma xml_to_fvtt_json_some `{XMLParser} `{UnicodeData} xml_string log j :
  xml_to_fvtt_json xml_string = (log, Some j) ->
  log = [] /\ exists root, well_formed xml_string root /\ convert root = Ok j.
Proof.
  unfold xml_to_fvtt_json, well_formed.
  destruct (encode_utf8 xml_string) as [bs|e]; [|by destruct e].
  rewrite bind_Ok.
  destruct (fromstring bs) as [root|e] eqn:Hparse; [|by destruct e].
  rewrite bind_Ok, convert_eq. intros [= <- <-].
  split; [reflexivity|]. exists root. split; [by exists bs | apply convert_eq].
Qed.

Lemma xml_to_fvtt_json_none `{XMLParser} `{UnicodeData} xml_string log :
  xml_to_fvtt_json xml_string = (log, None) -> exists r, log = [r].
Proof.
  unfold xml_to_fvtt_json.
  destruct (encode_utf8 xml_string ≫= _) as [j|e]; [discriminate|].
  destruct e; intros [= <-]; eauto.
Qed.

(** X3.  [xml_to_fvtt_json] has three outcomes and no other.  It returns a
    record, with nothing logged, exactly when the text encodes and parses,
    and the record is then the conversion of the parsed document; it logs
    the XML syntax error exactly when the parser raises it; and it logs the
    unexpected error exactly when the text holds a surrogate code point or
    the parser raises something else.  The mapping itself never causes the
    unexpected error, and a failure never comes with a record. *)
Theorem conversion_outcomes `{XMLParser} `{UnicodeData} (xml_string : list N) :
  (forall j, (xml_to_fvtt_json xml_string).2 = Some j
             <-> exists root, well_formed xml_string root
                              /\ convert root = Ok j)
  /\ ((xml_to_fvtt_json xml_string).1 = []
      <-> is_Some (xml_to_fvtt_json xml_string).2)
  /\ ((xml_to_fvtt_json xml_string).1 = [XmlSyntaxLogged]
      <-> malformed xml_string)
  /\ ((xml_to_fvtt_json xml_string).1 = [UnexpectedLogged]
      <-> (exists c, c ∈ xml_string /\ surrogate c)
          \/ (exists bs e, encode_utf8 xml_string = Ok bs
                           /\ fromstring bs = Raise e
                           /\ e <> XMLSyntaxError))
  /\ (length (xml_to_fvtt_json xml_string).1 <= 1)%nat.
Proof.
  unfold xml_to_fvtt_json, well_formed, malformed.
  destruct (encode_utf8 xml_string) as [bs|e] eqn:Henc.
  - rewrite bind_Ok.
    assert (Hnosur : ~ exists c, c ∈ xml_string /\ surrogate c).
    { intros (c & Hin & Hsur).
      rewrite (encode_utf8_surrogate _ _ Hin Hsur) in Henc. discriminate. }
    destruct (fromstring bs) as [root|e] eqn:Hparse.
    + rewrite bind_Ok, convert_eq. simpl.
      split; [|split; [|split; [|split]]].
      * intros j. split.
        -- intros [= <-]. exists root. split; [by exists bs | apply convert_eq].
        -- intros (root' & (bs' & [= <-] & Hp) & Hj).
           rewrite Hparse in Hp. injection Hp as <-.
           rewrite convert_eq in Hj. by injection Hj as <-.
      * split; eauto.
      * split; [discriminate|].
        intros (bs' & [= <-] & Hp). rewrite Hparse in Hp. discriminate.
      * split; [discriminate|].
        intros [Hs | (bs' & e & [= <-] & Hp & _)]; [by destruct Hnosur|].
        rewrite Hparse in Hp. discriminate.
      * lia.
    + rewrite bind_Raise_eq.
      split; [|split; [|split; [|split]]].
      * intros j. split; [by destruct e|].
        intros (root' & (bs' & [= <-] & Hp) & _).
        rewrite Hparse in Hp. discriminate.
      * split; [by destruct e | intros [j Hj]; by destruct e].
      * split.
        -- intros Hlog. exists bs. split; [reflexivity|].
           by destruct e.
        -- intros (bs' & [= <-] & Hp). rewrite Hparse in Hp.
           by injection Hp as ->.
      * split.
        -- intros Hlog. right. exists bs, e.
           split; [reflexivity|]. split; [exact Hparse|]. by destruct e.
        -- intros [Hs | (bs' & e' & [= <-] & Hp & Hne)];
             [by destruct Hnosur|].
           rewrite Hparse in Hp. injection Hp as <-. by destruct e.
      * destruct e; simpl; lia.
  - rewrite bind_Raise_eq.
    apply encode_utf8_raises in Henc as (-> & c & Hin & Hsur). simpl.
    split; [|split; [|split; [|split]]].
    + intros j. split; [discriminate|]. by intros (root & (bs & [=] & _) & _).
    + split; [discriminate | by intros [j [=]]].
    + split; [discriminate | by intros (bs & [=] & _)].
    + split; [eauto | reflexivity].
    + lia.
Qed.

(** Every path of the converter starts with [.//]: it is evaluated on the
    descendants of the root and never on the root itself. *)
Lemma iterfind_descendant_root t rest t1 a1 x1 t2 a2 x2 cs :
  iterfind (Self :: Descendant t :: rest) (mkElement t1 a1 x1 cs)
  = iterfind (Self :: Descendant t :: rest) (mkElement t2 a2 x2 cs).
Proof. reflexivity. Qed.

(** X4.  The conversion never looks at the root element itself: its tag, its
    attributes and its text do not change the result, which depends on the
    root's children only.  A root that is itself a container (named detail,
    or the inventory) is not found as one, and a root without children
    converts to the record of defaults. *)
Theorem root_element_ignored `{UnicodeData}
    (t1 t2 : list N) (a1 a2 : gmap (list N) (list N))
    (x1 x2 : option (list N)) (cs : list Element) :
  convert (mkElement t1 a1 x1 cs) = convert (mkElement t2 a2 x2 cs)
  /\ convert (mkElement t1 a1 x1 []) = Ok initial_json_data.
Proof.
  split.
  - rewrite !convert_eq. reflexivity.
  - rewrite convert_eq. reflexivity.
Qed.

Lemma parse_abilities_step_cases `{UnicodeData} e j :
  parse_abilities_step e j
  = match ability_key_of e with
    | Some k =>
      match abilities (system j) !! k with
      | Some _ =>
        Ok (with_system
              (with_abilities (insert k (Box (int_or_zero (text e))))) j)
      | None => Raise KeyError
      end
    | None => Ok j
    end.
Proof.
  unfold parse_abilities_step, ability_key_of.
  destruct (ability_mapping !! ability_name_jp e) as [k|] eqn:E; simpl;
    [|reflexivity].
  apply ability_mapping_values in E as [_ Ht]. rewrite Ht.
  rewrite get_int_value_text, bind_Ok. reflexivity.
Qed.

Lemma parse_abilities_loop_ok `{UnicodeData} l j :
  (forall e k, e ∈ l -> ability_key_of e = Some k ->
               is_Some (abilities (system j) !! k)) ->
  for_each l parse_abilities_step j
  = Ok (with_system (with_abilities (fun A => fold_left ability_update l A)) j).
Proof.
  revert j. induction l as [|a l IH]; intros j Hkeys; simpl.
  - by destruct j as [n t [A att D S] I].
  - rewrite parse_abilities_step_cases. unfold ability_update at 2.
    destruct (ability_key_of a) as [k|] eqn:Ha.
    + destruct (Hkeys a k) as [b Hb]; [left | exact Ha |].
      rewrite Hb, bind_Ok, IH.
      * by destruct j as [n t [A att D S] I].
      * intros e k' He Hk'. destruct j as [n t [A att D S] I]. simpl.
        rewrite lookup_insert_is_Some.
        destruct (decide (k = k')); [by left | right].
        split; [done|]. apply (Hkeys e k'); [by right | exact Hk'].
    + rewrite bind_Ok. apply IH.
      intros e k' He Hk'. apply (Hkeys e k'); [by right | exact Hk'].
Qed.

Lemma parse_abilities_loop_keyerror `{UnicodeData} l j :
  (exists e k, e ∈ l /\ ability_key_of e = Some k
               /\ abilities (system j) !! k = None) ->
  for_each l parse_abilities_step j = Raise KeyError.
Proof.
  revert j. induction l as [|a l IH]; intros j (e & k & He & Hk & Hnone).
  - by apply elem_of_nil in He.
  - simpl. rewrite parse_abilities_step_cases.
    destruct (ability_key_of a) as [ka|] eqn:Ha.
    + destruct (abilities (system j) !! ka) as [b|] eqn:Hb; [|reflexivity].
      rewrite bind_Ok. apply IH. exists e, k.
      apply elem_of_cons in He as [->|He]; [congruence|].
      split; [exact He|]. split; [exact Hk|].
      destruct j as [n t [A att D S] I]. simpl in *.
      rewrite lookup_insert_ne; [exact Hnone | congruence].
    + rewrite bind_Ok. apply IH. exists e, k.
      apply elem_of_cons in He as [->|He]; [congruence|]. auto.
Qed.

(** X5.  [parse_abilities] works on a record that already holds the ability
    keys: it succeeds when the key of every mapped ability node is present,
    and then changes nothing but the values of the abilities; when some
    mapped node's key is missing from the record it raises [KeyError] (it
    never adds a key). *)
Theorem parse_abilities_needs_keys `{UnicodeData} (root : Element)
    (j : json_data_t) :
  ((forall e k, e ∈ findall abilities_path root ->
                ability_key_of e = Some k ->
                is_Some (abilities (system j) !! k)) ->
   exists j',
     parse_abilities root j = Ok j'
     /\ abilities (system j')
        = fold_left ability_update (findall abilities_path root)
            (abilities (system j))
     /\ (forall k, is_Some (abilities (system j') !! k)
                   <-> is_Some (abilities (system j) !! k))
     /\ name j' = name j /\ type j' = type j /\ items j' = items j
     /\ attributes (system j') = attributes (system j)
     /\ details (system j') = details (system j)
     /\ spells (system j') = spells (system j))
  /\ ((exists e k, e ∈ findall abilities_path root
                   /\ ability_key_of e = Some k
                   /\ abilities (system j) !! k = None) ->
      parse_abilities root j = Raise KeyError).
Proof.
  split.
  - intros Hkeys. eexists. split; [by apply parse_abilities_loop_ok|].
    destruct j as [n t [A att D S] I]. record_simpl. simpl.
    split; [reflexivity|]. split; [|by repeat split].
    intros k. rewrite ability_fold_lookup.
    destruct (last _) as [e|] eqn:Hlast; [|reflexivity].
    apply last_Some_elem_of, list_elem_of_filter in Hlast as [He Hin].
    split; [intros _; by apply (Hkeys e k) | eauto].
  - apply parse_abilities_loop_keyerror.
Qed.

(** X5 on the sample sheet and a record without ability keys. *)
Lemma parse_abilities_keyerror_witness :
  @parse_abilities ascii_digits sample_sheet no_ability_keys = Raise KeyError.
Proof.
  apply (proj2 (@parse_abilities_needs_keys ascii_digits sample_sheet
                  no_ability_keys)).
  exists (data "【筋力】" [] (Some (py "15")) []), (py "str").
  split; [vm_compute; left|]. split; reflexivity.
Defined.

(** X6.  [parse_items] never raises: it keeps the items the record already
    holds, in their order, appends the records of the inventory children
    after them, and changes no other field.  Run twice, it appends them
    twice. *)
Theorem parse_items_appends (root : Element) (j : json_data_t) :
  parse_items root j
  = Ok (JsonData (name j) (type j) (system j)
          (items j ++ map item_record (item_nodes root)))
  /\ (j1 ← parse_items root j; parse_items root j1)
     = Ok (JsonData (name j) (type j) (system j)
             (items j ++ map item_record (item_nodes root)
                ++ map item_record (item_nodes root))).
Proof.
  destruct j as [n t Sy I]. simpl.
  rewrite !parse_items_eq, bind_Ok, parse_items_eq, <- app_assoc. done.
Qed.

Lemma join_nil sep (parts : list (list N)) :
  (forall p, p ∈ parts -> p <> []) -> join sep parts = [] -> parts = [].
Proof.
  destruct parts as [|p [|q rest]]; simpl; [done | |].
  - intros Hne ->. destruct (Hne []); [left | reflexivity].
  - intros Hne Hj. apply app_eq_nil in Hj as [-> _].
    destruct (Hne []); [left | reflexivity].
Qed.

Lemma biography_line_nonempty e l : biography_line e = Some l -> l <> [].
Proof.
  unfold biography_line.
  destruct (get e (py "name")) as [[|c n]|]; [| |discriminate].
  - destruct (text e); discriminate.
  - destruct (text e) as [t|]; [|discriminate].
    destruct (_ && _ && _); [|discriminate]. by intros [= <-].
Qed.

(** X7.  The biography of the returned record is the empty string exactly
    when no node under the detail node qualifies for a line (or there is no
    detail node): one qualifying node is enough to make it non-empty, and
    without one the default is kept. *)
Theorem biography_empty_iff `{UnicodeData} (root : Element) :
  exists j v,
    convert root = Ok j
    /\ details (system j) !! py "biography" = Some (DBoxed (Box v))
    /\ (v = [] <-> forall d e, find detail_path root = Some d ->
                               e ∈ iterdescendants (py "data") d ->
                               biography_line e = None)
    /\ (find detail_path root = None -> v = []).
Proof.
  exists (converted root), (join newline (biography_lines root)).
  split; [apply convert_eq|]. split; [apply converted_biography|].
  unfold biography_lines. split; [|by intros ->].
  destruct (find detail_path root) as [d|]; [|by split].
  split.
  - intros Hj d' e [= <-] He.
    apply join_nil in Hj.
    + destruct (biography_line e) as [l|] eqn:Hl; [|reflexivity].
      assert (Hin : l ∈ omap biography_line (iterdescendants (py "data") d))
        by (apply list_elem_of_omap; eauto).
      rewrite Hj in Hin. by apply elem_of_nil in Hin.
    + intros p Hp. apply list_elem_of_omap in Hp as (e' & _ & He').
      by apply biography_line_nonempty in He'.
  - intros Hnone.
    assert (Hl : omap biography_line (iterdescendants (py "data") d) = []).
    { destruct (omap _ _) as [|l ls] eqn:E; [reflexivity|].
      assert (Hin : l ∈ omap biography_line (iterdescendants (py "data") d))
        by (rewrite E; left).
      apply list_elem_of_omap in Hin as (e & He & Hline).
      rewrite (Hnone d e eq_refl He) in Hline. discriminate. }
    by rewrite Hl.
Qed.

Lemma skip_names_not_abilities n :
  n ∈ skip_names ->
  ability_mapping !! replace (py "】") [] (replace (py "【") [] n) = None.
Proof.
  unfold skip_names. rewrite elem_of_list_to_set. intros Hn.
  repeat (apply elem_of_cons in Hn as [->|Hn]; [vm_compute; reflexivity|]).
  by apply elem_of_nil in Hn.
Qed.

Lemma ability_key_of_named e k :
  ability_key_of e = Some k ->
  exists n, get e (py "name") = Some n /\ n <> [] /\ n ∉ skip_names.
Proof.
  intros Hk. apply ability_key_of_mapping in Hk.
  unfold ability_name_jp, get_default in Hk.
  destruct (get e (py "name")) as [n|]; [|vm_compute in Hk; discriminate].
  exists n. split; [reflexivity|]. split.
  - intros ->. vm_compute in Hk. discriminate.
  - intros Hn. apply skip_names_not_abilities in Hn. congruence.
Qed.

(** X8.  The biography loop tests a node's own name only, and no ability
    label is in the skip set: an ability node with text that lies under the
    detail node is mapped to its ability and is also repeated in the
    biography, as its name (brackets kept), a colon and a space, and its
    trimmed text. *)
Theorem ability_nodes_repeated_in_biography `{UnicodeData} (root : Element)
    (d e : Element) (k t : list N) :
  find detail_path root = Some d ->
  e ∈ iterdescendants (py "data") d ->
  ability_key_of e = Some k ->
  text e = Some t -> t <> [] ->
  exists n j,
    get e (py "name") = Some n
    /\ (n ++ py ": " ++ strip t) ∈ biography_lines root
    /\ convert root = Ok j
    /\ details (system j) !! py "biography"
       = Some (DBoxed (Box (join newline (biography_lines root)))).
Proof.
  intros Hd He Hk Ht Hne.
  destruct (ability_key_of_named e k Hk) as (n & Hn & Hnn & Hskip).
  exists n, (converted root). split; [exact Hn|].
  split; [|split; [apply convert_eq | apply converted_biography]].
  unfold biography_lines. rewrite Hd.
  apply list_elem_of_omap. exists e. split; [exact He|].
  unfold biography_line.
  rewrite Hn, Ht, bool_decide_eq_false_2 by exact Hskip.
  destruct n; [done|]. destruct t; [done|]. reflexivity.
Qed.

(** X8 on the sample sheet: the strength node gives both [str] and a
    line. *)
Lemma ability_nodes_repeated_witness :
  exists n j,
    get (data "【筋力】" [] (Some (py "15")) []) (py "name") = Some n
    /\ (n ++ py ": " ++ strip (py "15"))
       ∈ biography_lines sample_sheet
    /\ @convert ascii_digits sample_sheet = Ok j
    /\ details (system j) !! py "biography"
       = Some (DBoxed (Box (join newline (biography_lines sample_sheet)))).
Proof.
  assert (Hd : exists d, find detail_path sample_sheet = Some d)
    by (vm_compute; eauto).
  destruct Hd as [d Hd].
  apply (@ability_nodes_repeated_in_biography ascii_digits sample_sheet d
           (data "【筋力】" [] (Some (py "15")) []) (py "str") (py "15")).
  - exact Hd.
  - vm_compute in Hd. injection Hd as <-. vm_compute. right. left.
  - reflexivity.
  - reflexivity.
  - by vm_compute.
Defined.

Lemma replace_single c s :
  replace [c] [] s = List.filter (fun x => negb (x =? c)%N) s.
Proof.
  unfold replace. induction s as [|x s IH]; [reflexivity|].
  cbn [replace_from startswith length Nat.sub List.filter].
  rewrite N.eqb_sym. destruct (x =? c)%N; simpl; by rewrite IH.
Qed.

Lemma filter_filter_and {A} (p q : A -> bool) (l : list A) :
  List.filter q (List.filter p l) = List.filter (fun x => p x && q x) l.
Proof.
  induction l as [|x l IH]; [reflexivity|]. simpl.
  destruct (p x); simpl; [destruct (q x)|]; by rewrite IH.
Qed.

(** X9.  The label of an ability node is its name with every 【 and 】
    removed, wherever they stand, and nothing else changed: the label holds
    no bracket, a name without brackets is its own label, and two nodes whose
    names differ only by brackets are mapped to the same key. *)
Theorem ability_label_brackets_removed (e : Element) :
  ability_name_jp e
  = List.filter (fun c => negb (bracket c)) (get_default e (py "name") [])
  /\ (forall c, c ∈ ability_name_jp e -> bracket c = false)
  /\ (forallb (fun c => negb (bracket c)) (get_default e (py "name") []) = true
      -> ability_name_jp e = get_default e (py "name") [])
  /\ (forall e',
        List.filter (fun c => negb (bracket c)) (get_default e' (py "name") [])
        = List.filter (fun c => negb (bracket c)) (get_default e (py "name") [])
        -> ability_key_of e' = ability_key_of e).
Proof.
  assert (Hlabel : forall x,
    ability_name_jp x
    = List.filter (fun c => negb (bracket c)) (get_default x (py "name") [])).
  { intros x. unfold ability_name_jp.
    change (py "】") with [12305%N]. change (py "【") with [12304%N].
    rewrite !replace_single, filter_filter_and.
    apply filter_ext. intros c. unfold bracket.
    by destruct (c =? 12304)%N, (c =? 12305)%N. }
  split; [apply Hlabel|]. split; [|split].
  - intros c. rewrite Hlabel, list_elem_of_In, filter_In.
    intros [_ Hc]. by apply negb_true_iff in Hc.
  - intros Hall. rewrite Hlabel.
    induction (get_default e (py "name") []) as [|c l IH]; [reflexivity|].
    simpl in *. apply andb_true_iff in Hall as [-> Hall]. f_equal. by apply IH.
  - intros e' Heq. unfold ability_key_of. by rewrite !Hlabel, Heq.
Qed.

Lemma lstrip_app_space l s :
  forallb isspace l = true -> lstrip (l ++ s) = lstrip s.
Proof.
  induction l as [|c l IH]; simpl; [reflexivity|].
  intros Hl. apply andb_true_iff in Hl as [-> Hl]. by apply IH.
Qed.

Lemma lstrip_nonspace c s : isspace c = false -> lstrip (c :: s) = c :: s.
Proof. intros Hc. simpl. by rewrite Hc. Qed.

(** Trimming gives back a text that has whitespace around it and none at its
    own two ends. *)
Lemma strip_core l body r a z :
  forallb isspace l = true -> forallb isspace r = true ->
  head body = Some a -> isspace a = false ->
  last body = Some z -> isspace z = false ->
  strip (l ++ body ++ r) = body.
Proof.
  intros Hl Hr Ha Hna Hz Hnz. unfold strip, rstrip.
  rewrite lstrip_app_space by exact Hl.
  destruct body as [|a' body]; [discriminate|]. injection Ha as ->.
  rewrite <- app_comm_cons, lstrip_nonspace by exact Hna.
  rewrite app_comm_cons, rev_app_distr.
  rewrite lstrip_app_space by (by rewrite forallb_rev_eq).
  assert (Hrev : exists w, rev (a :: body) = z :: w).
  { apply last_Some in Hz as [w Hw]. exists (rev w).
    rewrite Hw, rev_app_distr. reflexivity. }
  destruct Hrev as [w Hw]. rewrite Hw, lstrip_nonspace by exact Hnz.
  by rewrite <- Hw, rev_involutive.
Qed.

Lemma digit_not_space c : is_digit c -> isspace c = false.
Proof.
  intros Hc. apply digit_cases in Hc.
  repeat (apply elem_of_cons in Hc as [->|Hc]; [reflexivity|]).
  by apply elem_of_nil in Hc.
Qed.

(** A text that starts with a digit has no whitespace and no sign to
    skip. *)
Lemma digit_first c ds :
  is_digit c ->
  PyInt.skip_space (c :: ds) = c :: ds
  /\ match c :: ds with
     | 43%N :: r => (false, r)
     | 45%N :: r => (true, r)
     | _ => (false, c :: ds)
     end = (false, c :: ds).
Proof.
  intros Hc. apply digit_cases in Hc.
  repeat (apply elem_of_cons in Hc as [->|Hc]; [by split|]).
  by apply elem_of_nil in Hc.
Qed.

Section Signed_numerals.
Context `{UnicodeData}.

Lemma from_string_digits ds :
  ds <> [] -> Forall is_digit ds -> (length ds <= PyInt.max_str_digits)%nat ->
  PyInt.from_string ds = Ok (digits_value ds).
Proof.
  intros Hne Hds Hlen. pose proof (int_decimal ds Hne Hds Hlen) as Hint.
  unfold PyInt.int in Hint. by rewrite transform_digits in Hint.
Qed.

Lemma from_string_too_long ds :
  Forall is_digit ds -> (PyInt.max_str_digits < length ds)%nat ->
  PyInt.from_string ds = Raise ValueError.
Proof.
  intros Hds Hlen.
  destruct (PyInt.from_string ds) as [n|e] eqn:E;
    [|by apply from_string_raises in E as ->].
  exfalso. revert E.
  destruct ds as [|c ds]; [simpl in Hlen; lia|].
  pose proof (scan_digits (c :: ds) 0 0 Hds) as Hscan.
  apply Forall_cons in Hds as [Hc Hds].
  unfold PyInt.from_string.
  destruct (digit_first c ds Hc) as [Hskip Hsign]. rewrite Hskip, Hsign.
  assert (Hus : (c =? PyInt.underscore)%N = false).
  { unfold is_digit in Hc. unfold PyInt.underscore. apply N.eqb_neq. lia. }
  rewrite Hus, Hscan.
  cbn [length Nat.add PyInt.skip_space].
  destruct (Nat.ltb_spec PyInt.max_str_digits (S (length ds)));
    [discriminate | simpl in Hlen; lia].
Qed.

Lemma from_string_signed s ds :
  ds <> [] -> Forall is_digit ds -> (length ds <= PyInt.max_str_digits)%nat ->
  PyInt.from_string (sign_text s ++ ds) = Ok (signed s (digits_value ds)).
Proof.
  intros Hne Hds Hlen.
  pose proof (from_string_digits ds Hne Hds Hlen) as Hplain.
  destruct s; [exact Hplain | |].
  - change (sign_text Plus ++ ds) with (43%N :: ds).
    destruct ds as [|c ds]; [done|].
    destruct (digit_first c ds) as [Hskip Hsign];
      [by apply Forall_cons in Hds as [Hc _]|].
    unfold PyInt.from_string in Hplain |- *.
    rewrite Hskip, Hsign in Hplain. exact Hplain.
  - change (sign_text Minus ++ ds) with (45%N :: ds).
    destruct ds as [|c ds]; [done|].
    destruct (digit_first c ds) as [Hskip Hsign];
      [by apply Forall_cons in Hds as [Hc _]|].
    unfold PyInt.from_string in Hplain |- *.
    rewrite Hskip, Hsign in Hplain.
    change (PyInt.skip_space (45%N :: c :: ds)) with (45%N :: c :: ds).
    cbv beta iota.
    destruct (c =? PyInt.underscore)%N; [discriminate|].
    destruct (PyInt.scan false 0 0 (c :: ds)) as [[[n digits] rest]|];
      [|discriminate].
    destruct digits; [discriminate|].
    destruct (PyInt.skip_space rest); [|discriminate].
    destruct (_ <? _)%nat; [discriminate|].
    injection Hplain as ->. reflexivity.
Qed.

Lemma transform_signed s ds :
  Forall is_digit ds ->
  PyInt.transform (sign_text s ++ ds) = Some (sign_text s ++ ds).
Proof.
  intros Hds. pose proof (transform_digits ds Hds) as Ht.
  destruct s; [exact Ht | |]; simpl; by rewrite Ht.
Qed.

End Signed_numerals.

Lemma signed_numeral_ends s ds :
  ds <> [] -> Forall is_digit ds ->
  exists a z,
    head (sign_text s ++ ds) = Some a /\ isspace a = false
    /\ last (sign_text s ++ ds) = Some z /\ isspace z = false.
Proof.
  intros Hne Hds.
  assert (Hz : exists z, last ds = Some z /\ isspace z = false).
  { destruct (last ds) as [z|] eqn:Hl; [|by apply last_None in Hl].
    exists z. split; [reflexivity|]. apply digit_not_space.
    apply last_Some_elem_of in Hl.
    by apply (proj1 (Forall_forall _ _) Hds). }
  destruct Hz as (z & Hz & Hnz).
  assert (Hlast : last (sign_text s ++ ds) = Some z).
  { rewrite last_app, Hz. reflexivity. }
  destruct ds as [|c ds]; [done|].
  apply Forall_cons in Hds as [Hc _]. apply digit_not_space in Hc.
  destruct s; [exists c, z | exists 43%N, z | exists 45%N, z]; auto.
Qed.

(** X10.  [get_int_value] reads a signed decimal numeral: when the value is
    whitespace, an optional [+] or [-], between 1 and 4300 ASCII digits, and
    whitespace again, the result is the number the digits denote, negated
    after a minus sign.  Current values and maxima can so be negative. *)
Theorem get_int_value_reads_numerals `{UnicodeData} (e : Element)
    (attrib_name l r ds : list N) (s : sign) :
  value_of e attrib_name = Some (l ++ (sign_text s ++ ds) ++ r) ->
  forallb isspace l = true -> forallb isspace r = true ->
  ds <> [] -> Forall is_digit ds ->
  (length ds <= PyInt.max_str_digits)%nat ->
  get_int_value (Some e) attrib_name = Ok (signed s (digits_value ds)).
Proof.
  intros Hv Hl Hr Hne Hds Hlen.
  rewrite get_int_value_some. fold (value_of e attrib_name). rewrite Hv.
  destruct (signed_numeral_ends s ds Hne Hds) as (a & z & Ha & Hna & Hz & Hnz).
  unfold int_or_zero.
  rewrite (strip_core l (sign_text s ++ ds) r a z) by assumption.
  unfold PyInt.int. rewrite transform_signed by exact Hds.
  by rewrite from_string_signed.
Qed.

(** X10 on a node with text [" -12 "]. *)
Lemma get_int_value_negative_witness :
  @get_int_value ascii_digits (Some negative_node) (py "text") = Ok (-12).
Proof.
  apply (@get_int_value_reads_numerals ascii_digits negative_node (py "text")
           (py " ") (py " ") (py "12") Minus).
  - reflexivity.
  - reflexivity.
  - reflexivity.
  - discriminate.
  - change (py "12") with [49%N; 50%N].
    repeat (apply List.Forall_cons; [unfold is_digit; lia|]).
    apply List.Forall_nil.
  - unfold PyInt.max_str_digits. simpl. lia.
Defined.

(** X11.  A numeral of more than 4300 digits is not read: [int] refuses it
    with [ValueError] (the interpreter's default limit on the length of an
    integer string), which [get_int_value] catches, so the value is 0. *)
Theorem get_int_value_digit_limit `{UnicodeData} (e : Element)
    (attrib_name ds : list N) :
  value_of e attrib_name = Some ds ->
  Forall is_digit ds ->
  (PyInt.max_str_digits < length ds)%nat ->
  get_int_value (Some e) attrib_name = Ok 0.
Proof.
  intros Hv Hds Hlen.
  rewrite get_int_value_some. fold (value_of e attrib_name). rewrite Hv.
  assert (Hne : ds <> []) by (intros ->; simpl in Hlen; lia).
  destruct (signed_numeral_ends NoSign ds Hne Hds)
    as (a & z & Ha & Hna & Hz & Hnz).
  unfold int_or_zero.
  pose proof (strip_core [] ds [] a z eq_refl eq_refl Ha Hna Hz Hnz) as Hs.
  simpl in Hs. rewrite app_nil_r in Hs. rewrite Hs.
  unfold PyInt.int. rewrite transform_digits by exact Hds.
  by rewrite from_string_too_long.
Qed.

(** X11 on a node whose text is 4301 nines. *)
Lemma get_int_value_digit_limit_witness :
  @get_int_value ascii_digits (Some long_numeral_node) (py "text") = Ok 0.
Proof.
  apply (@get_int_value_digit_limit ascii_digits long_numeral_node (py "text")
           (replicate 4301 57%N)).
  - reflexivity.
  - apply Forall_replicate. unfold is_digit. lia.
  - rewrite length_replicate. unfold PyInt.max_str_digits. lia.
Defined.

(** ** The command line: paths *)

Lemma rfind_from_absent c p i last :
  c ∉ p -> PyPath.rfind_from c p i last = last.
Proof.
  revert i last. induction p as [|x p IH]; intros i last Hc; simpl;
    [reflexivity|].
  apply not_elem_of_cons in Hc as [Hne Hc].
  rewrite IH by exact Hc.
  destruct (N.eqb_spec x c); [congruence | reflexivity].
Qed.

Lemma rfind_from_last c a b i last :
  c ∉ b ->
  PyPath.rfind_from c (a ++ c :: b) i last = i + Z.of_nat (length a).
Proof.
  intros Hc. revert i last. induction a as [|x a IH]; intros i last; simpl.
  - rewrite N.eqb_refl, rfind_from_absent by exact Hc. lia.
  - rewrite IH. lia.
Qed.

Lemma rfind_absent c p : c ∉ p -> PyPath.rfind c p = -1.
Proof. apply rfind_from_absent. Qed.

Lemma rfind_last c a b :
  c ∉ b -> PyPath.rfind c (a ++ c :: b) = Z.of_nat (length a).
Proof. intros Hc. unfold PyPath.rfind. by rewrite rfind_from_last. Qed.

(** Either the character does not occur, or the text splits at its last
    occurrence. *)
Lemma rfind_cases c p :
  ((c ∉ p) /\ PyPath.rfind c p = (-1))
  \/ (exists a b, p = a ++ c :: b /\ (c ∉ b)
                  /\ PyPath.rfind c p = Z.of_nat (length a)).
Proof.
  destruct (decide (c ∈ p)) as [Hin|Hout].
  - right. apply list_elem_of_split_r in Hin as (a & b & -> & Hb).
    exists a, b. split; [reflexivity|]. split; [exact Hb|].
    by apply rfind_last.
  - left. split; [exact Hout | by apply rfind_absent].
Qed.

Lemma split_last_unique (c : N) (a b x y : list N) :
  a ++ c :: x = b ++ c :: y -> c ∉ x -> c ∉ y -> a = b /\ x = y.
Proof.
  intros Heq Hx Hy.
  assert (Hlen : length a = length b).
  { pose proof (rfind_last c a x Hx) as Ha.
    rewrite Heq, (rfind_last c b y Hy) in Ha. lia. }
  apply app_inj_1 in Heq as [-> Hxy]; [|exact Hlen].
  by injection Hxy as ->.
Qed.

Lemma basename_plain n : PyPath.sep ∉ n -> PyPath.basename n = n.
Proof.
  intros Hn. unfold PyPath.basename. by rewrite rfind_absent.
Qed.

Lemma basename_dir d n :
  PyPath.sep ∉ n -> dir_prefix d -> PyPath.basename (d ++ n) = n.
Proof.
  intros Hn [->|Hd]; [by apply basename_plain|].
  apply last_Some in Hd as [d' ->].
  unfold PyPath.basename. rewrite <- app_assoc. simpl.
  rewrite rfind_last by exact Hn.
  replace (Z.to_nat (Z.of_nat (length d') + 1)) with (length (d' ++ [PyPath.sep]))
    by (rewrite length_app; simpl; lia).
  change (d' ++ PyPath.sep :: n) with (d' ++ [PyPath.sep] ++ n).
  rewrite app_assoc. apply drop_app_length.
Qed.

(** The base name is what follows the last slash. *)
Lemma basename_decompose p :
  exists d, p = d ++ PyPath.basename p /\ dir_prefix d
            /\ PyPath.sep ∉ PyPath.basename p.
Proof.
  destruct (rfind_cases PyPath.sep p) as [[Hout _]|(a & b & -> & Hb & _)].
  - exists []. rewrite basename_plain by exact Hout.
    split; [reflexivity|]. split; [by left | exact Hout].
  - exists (a ++ [PyPath.sep]).
    assert (Hd : dir_prefix (a ++ [PyPath.sep])) by (right; apply last_snoc).
    change (a ++ PyPath.sep :: b) with (a ++ [PyPath.sep] ++ b).
    rewrite app_assoc, basename_dir by assumption. auto.
Qed.

Lemma existsb_take_stem stem e :
  has_non_dot stem = true ->
  existsb (fun c => negb (c =? PyPath.extsep)%N)
    (take (length stem) (stem ++ PyPath.extsep :: e)) = true.
Proof. intros Hs. by rewrite take_app_length. Qed.

(** A name with a stem, a dot and a dot-free rest splits at that dot. *)
Lemma splitext_ext stem e :
  PyPath.sep ∉ stem -> PyPath.sep ∉ e -> PyPath.extsep ∉ e ->
  has_non_dot stem = true ->
  PyPath.splitext (stem ++ PyPath.extsep :: e) = (stem, PyPath.extsep :: e).
Proof.
  intros Hs He Hdot Hstem. unfold PyPath.splitext.
  assert (Hsep : PyPath.rfind PyPath.sep (stem ++ PyPath.extsep :: e) = -1).
  { apply rfind_absent. rewrite elem_of_app, elem_of_cons.
    intros [?|[Heq|?]]; [done | discriminate Heq | done]. }
  rewrite Hsep, rfind_last by exact Hdot.
  destruct (Z.ltb_spec (-1) (Z.of_nat (length stem))); [|lia].
  replace (Z.to_nat (Z.of_nat (length stem) - (-1 + 1))) with (length stem)
    by lia.
  replace (Z.to_nat (Z.of_nat (length stem))) with (length stem) by lia.
  change (Z.to_nat (-1 + 1)) with 0%nat. rewrite ?drop_0.
  rewrite existsb_take_stem by exact Hstem. simpl.
  by rewrite take_app_length, drop_app_length.
Qed.

(** A name whose dots all stand at its start has no extension. *)
Lemma splitext_leading_dots k e :
  PyPath.sep ∉ e -> PyPath.extsep ∉ e ->
  PyPath.splitext (replicate k PyPath.extsep ++ e)
  = (replicate k PyPath.extsep ++ e, []).
Proof.
  intros He Hdot. unfold PyPath.splitext.
  assert (Hsep : PyPath.rfind PyPath.sep (replicate k PyPath.extsep ++ e) = -1).
  { apply rfind_absent. rewrite elem_of_app. intros [Hin|?]; [|done].
    apply elem_of_replicate in Hin as [Heq _]. discriminate Heq. }
  rewrite Hsep. change (Z.to_nat (-1 + 1)) with 0%nat. rewrite drop_0.
  destruct k as [|k].
  - simpl. rewrite rfind_absent by exact Hdot. reflexivity.
  - replace (replicate (S k) PyPath.extsep ++ e)
      with (replicate k PyPath.extsep ++ PyPath.extsep :: e)
      by (rewrite replicate_S_end, <- app_assoc; reflexivity).
    rewrite rfind_last by exact Hdot. rewrite length_replicate.
    destruct (Z.ltb_spec (-1) (Z.of_nat k)); [|lia].
    replace (Z.to_nat (Z.of_nat k - (-1 + 1))) with k by lia.
    replace k with (length (replicate k PyPath.extsep)) at 1
      by apply length_replicate.
    rewrite take_app_length.
    assert (Hdots : existsb (fun c => negb (c =? PyPath.extsep)%N)
                      (replicate k PyPath.extsep) = false).
    { clear. induction k as [|k IH]; [reflexivity|]. simpl. exact IH. }
    by rewrite Hdots.
Qed.

(** What [splitext] returns on a base name: the two parts make up the name,
    and the extension is empty or a dot followed by dot-free text. *)
Lemma splitext_shape n b x :
  PyPath.splitext n = (b, x) ->
  n = b ++ x
  /\ (x = [] \/ exists e, x = PyPath.extsep :: e /\ PyPath.extsep ∉ e).
Proof.
  unfold PyPath.splitext.
  destruct (_ && _) eqn:Hc; intros [= <- <-].
  - split; [by rewrite take_drop|]. right.
    apply andb_true_iff in Hc as [Hlt _]. apply Z.ltb_lt in Hlt.
    destruct (rfind_cases PyPath.extsep n)
      as [[_ Hr]|(a & e & -> & He & Hr)].
    + destruct (rfind_cases PyPath.sep n)
        as [[_ Hs]|(a' & e' & _ & _ & Hs)]; lia.
    + rewrite Hr. replace (Z.to_nat (Z.of_nat (length a))) with (length a)
        by lia.
      rewrite drop_app_length. eauto.
  - split; [by rewrite app_nil_r | by left].
Qed.

Lemma lower_ascii `{CaseData} s : ascii s -> lower s = map ascii_lower s.
Proof.
  unfold lower. generalize (lower_at s) as g. intros g Hs.
  revert g. induction Hs as [|c l Hc _ IH]; intros g; [reflexivity|].
  rewrite imap_cons. simpl.
  destruct (N.ltb_spec c 128); [|lia]. simpl. f_equal. apply IH.
Qed.

(** ** The command line: runs *)

Section Runs.
Context `{XMLParser} `{UnicodeData} `{CaseData} `{FileSystem}.

Lemma main_not_accepted input_filename :
  ~ accepted input_filename ->
  main input_filename = Run [NotXmlLogged] [] (Exited 1).
Proof.
  unfold accepted, main. intros Hno.
  destruct (PyPath.splitext (PyPath.basename input_filename)) as [b x].
  simpl in Hno. by rewrite bool_decide_eq_false_2.
Qed.

Lemma main_accepted input_filename :
  accepted input_filename ->
  main input_filename
  = let output_filename :=
      output_filename_of
        (PyPath.splitext (PyPath.basename input_filename)).1 in
    match read_text input_filename with
    | ReadFileNotFound =>
      Run [FileNotFoundLogged input_filename] [] (Exited 1)
    | ReadRaises => Run [] [] Uncaught
    | ReadOk xml_data =>
      match xml_to_fvtt_json xml_data with
      | (log, Some json_data) =>
        if writable output_filename then
          Run (map ConverterLogged log ++ [WrittenLogged output_filename])
              [(output_filename, json_data)] Completed
        else Run (map ConverterLogged log) [] Uncaught
      | (log, None) =>
        Run (map ConverterLogged log ++ [ConversionFailedLogged]) []
            Completed
      end
    end.
Proof.
  unfold accepted, main. intros Hyes.
  destruct (PyPath.splitext (PyPath.basename input_filename)) as [b x].
  simpl in Hyes. rewrite bool_decide_eq_true_2 by exact Hyes. simpl.
  destruct (read_text input_filename); reflexivity.
Qed.

Lemma accepted_or_not input_filename :
  accepted input_filename \/ ~ accepted input_filename.
Proof.
  unfold accepted.
  destruct (decide (lower (PyPath.splitext
                             (PyPath.basename input_filename)).2
                    = py ".xml")); auto.
Qed.

Lemma lower_nil : lower [] = [].
Proof. reflexivity. Qed.

Lemma accepted_extension input_filename :
  accepted input_filename ->
  exists d b e,
    input_filename = d ++ b ++ PyPath.extsep :: e
    /\ PyPath.splitext (PyPath.basename input_filename)
       = (b, PyPath.extsep :: e)
    /\ dir_prefix d /\ (PyPath.sep ∉ b) /\ (PyPath.extsep ∉ e)
    /\ lower (PyPath.extsep :: e) = py ".xml".
Proof.
  unfold accepted. intros Hyes.
  destruct (basename_decompose input_filename) as (d & Hd & Hdir & Hsep).
  destruct (PyPath.splitext (PyPath.basename input_filename)) as [b x] eqn:E.
  simpl in Hyes.
  apply splitext_shape in E as [Hn [->|(e & -> & He)]];
    [rewrite lower_nil in Hyes; discriminate|].
  exists d, b, e. rewrite Hd at 1. rewrite Hn.
  repeat split; try done.
  intros Hb. apply Hsep. rewrite Hn. apply elem_of_app. by left.
Qed.

End Runs.

Lemma output_affixes :
  (PyPath.sep ∉ py "2converted_") /\ (PyPath.sep ∉ py ".json")
  /\ (PyPath.extsep ∉ py "json").
Proof.
  repeat split; apply (bool_decide_unpack _); vm_compute; exact I.
Qed.

Section Run_properties.
Context `{XMLParser} `{UnicodeData} `{CaseData} `{FileSystem}.

(** X12.  The extension is tested before the file is opened, on the last
    component of the path.  A name without a dot, a name whose dots all
    stand at its start (a hidden file such as [.xml]), and a name whose
    ASCII extension is not [xml] in some case are refused: one error is
    logged, nothing is written and the exit status is 1, whether or not the
    file exists. *)
Theorem main_rejects_other_names (input_filename : list N) :
  (exists k e, PyPath.basename input_filename
               = replicate k PyPath.extsep ++ e
               /\ (PyPath.extsep ∉ e))
  \/ (exists stem e, PyPath.basename input_filename
                     = stem ++ PyPath.extsep :: e
                     /\ (PyPath.extsep ∉ e) /\ has_non_dot stem = true
                     /\ ascii e /\ map ascii_lower e <> py "xml") ->
  main input_filename = Run [NotXmlLogged] [] (Exited 1)
  /\ exit_status (run_end (main input_filename)) = 1.
Proof.
  intros Hname.
  assert (Hmain : main input_filename = Run [NotXmlLogged] [] (Exited 1));
    [|by rewrite Hmain].
  apply main_not_accepted. unfold accepted.
  destruct (basename_decompose input_filename) as (d & _ & _ & Hsep).
  destruct Hname as [(k & e & Hn & He)|(stem & e & Hn & He & Hstem & Ha & Hx)];
    rewrite Hn in Hsep |- *.
  - rewrite splitext_leading_dots; [simpl; by rewrite lower_nil | | exact He].
    intros Hin. apply Hsep, elem_of_app. by right.
  - rewrite splitext_ext; [| | |exact He|exact Hstem].
    + simpl. rewrite lower_ascii
        by (apply List.Forall_cons; [unfold PyPath.extsep; lia | exact Ha]).
      simpl. change (py ".xml") with (46%N :: py "xml").
      intros [= Heq]. by apply Hx.
    + intros Hin. apply Hsep, elem_of_app. by left.
    + intros Hin. apply Hsep, elem_of_app. right. by right.
Qed.

(** X13.  A file whose last component is a stem, a dot and [xml] in any
    ASCII case, that can be read and holds a well-formed document, is
    converted: exactly one file is written, named [2converted_] + stem +
    [.json] without the directory of the input (so in the working
    directory), holding the converted record; the success is logged and the
    run completes. *)
Theorem main_converts_xml_file (d stem e xml_data : list N) (root : Element) :
  dir_prefix d -> PyPath.sep ∉ stem -> PyPath.sep ∉ e ->
  PyPath.extsep ∉ e -> has_non_dot stem = true ->
  ascii e -> map ascii_lower e = py "xml" ->
  read_text (d ++ stem ++ PyPath.extsep :: e) = ReadOk xml_data ->
  well_formed xml_data root ->
  writable (output_filename_of stem) = true ->
  exists j,
    convert root = Ok j
    /\ main (d ++ stem ++ PyPath.extsep :: e)
       = Run [WrittenLogged (output_filename_of stem)]
             [(output_filename_of stem, j)] Completed.
Proof.
  intros Hd Hs He Hdot Hstem Ha Hx Hread (bs & Henc & Hparse) Hw.
  exists (converted root). split; [apply convert_eq|].
  assert (Hn : PyPath.sep ∉ stem ++ PyPath.extsep :: e).
  { rewrite elem_of_app, elem_of_cons.
    intros [?|[Heq|?]]; [done | discriminate Heq | done]. }
  assert (Hsplit :
    PyPath.splitext (PyPath.basename (d ++ stem ++ PyPath.extsep :: e))
    = (stem, PyPath.extsep :: e)).
  { rewrite basename_dir by assumption. by apply splitext_ext. }
  rewrite main_accepted.
  - rewrite Hsplit, Hread. cbv zeta. simpl fst.
    unfold xml_to_fvtt_json. rewrite Henc, bind_Ok, Hparse, bind_Ok.
    rewrite convert_eq, Hw. reflexivity.
  - unfold accepted. rewrite Hsplit. simpl.
    rewrite lower_ascii
      by (apply List.Forall_cons; [unfold PyPath.extsep; lia | exact Ha]).
    simpl. by rewrite Hx.
Qed.

(** X14.  How a run ends.  A missing file ends it with status 1 and the
    file-not-found error; a file that reads but does not convert leaves the
    converter's error and the failure message in the log, writes nothing and
    still completes with status 0.  The status is 0 exactly when the name is
    accepted, the file reads, and either the conversion failed or the output
    could be opened. *)
Theorem main_endings (input_filename : list N) :
  (accepted input_filename -> read_text input_filename = ReadFileNotFound ->
   main input_filename
   = Run [FileNotFoundLogged input_filename] [] (Exited 1))
  /\ (forall xml_data,
        accepted input_filename ->
        read_text input_filename = ReadOk xml_data ->
        (forall root, ~ well_formed xml_data root) ->
        exists r,
          main input_filename
          = Run [ConverterLogged r; ConversionFailedLogged] [] Completed
          /\ exit_status (run_end (main input_filename)) = 0)
  /\ (exit_status (run_end (main input_filename)) = 0
      <-> accepted input_filename
          /\ exists xml_data,
               read_text input_filename = ReadOk xml_data
               /\ ((xml_to_fvtt_json xml_data).2 = None
                   \/ writable
                        (output_filename_of
                           (PyPath.splitext
                              (PyPath.basename input_filename)).1) = true)).
Proof.
  split; [|split].
  - intros Hyes Hread. by rewrite main_accepted, Hread.
  - intros xml_data Hyes Hread Hno.
    rewrite main_accepted by exact Hyes. rewrite Hread. cbv zeta.
    destruct (xml_to_fvtt_json xml_data) as [log [j|]] eqn:Hx; simpl in *.
    + apply xml_to_fvtt_json_some in Hx as (_ & root & Hwf & _).
      destruct (Hno root Hwf).
    + apply xml_to_fvtt_json_none in Hx as [r ->]. eauto.
  - destruct (accepted_or_not input_filename) as [Hyes|Hno].
    + rewrite main_accepted by exact Hyes. cbv zeta.
      destruct (read_text input_filename) as [xml_data| |]; simpl.
      * destruct (xml_to_fvtt_json xml_data) as [log [j|]] eqn:Hx; simpl.
        -- destruct (writable _) eqn:Hw; simpl.
           ++ split; [intros _|reflexivity]. split; [exact Hyes|].
              exists xml_data. auto.
           ++ split; [discriminate|].
              intros (_ & xml' & [= <-] & [Hnone|Hw']);
                [rewrite Hx in Hnone; discriminate | discriminate].
        -- split; [intros _|reflexivity]. split; [exact Hyes|].
           exists xml_data. rewrite Hx. auto.
      * split; [discriminate | by intros (_ & xml' & Hread & _)].
      * split; [discriminate | by intros (_ & xml' & Hread & _)].
    + rewrite main_not_accepted by exact Hno. simpl.
      split; [discriminate | by intros [Hyes _]].
Qed.

(** X15.  What a run writes.  At most one file, and only in a run that
    completes on a document that parsed; its name has no directory part,
    is [2converted_] + base + [.json] for the base of the input's last
    component, and differs from the input path, so the input is never
    overwritten; what is written is the conversion of the parsed document. *)
Theorem main_output_file (input_filename f : list N) (j : json_data_t) :
  (f, j) ∈ run_written (main input_filename) ->
  run_written (main input_filename) = [(f, j)]
  /\ run_end (main input_filename) = Completed
  /\ f = output_filename_of
           (PyPath.splitext (PyPath.basename input_filename)).1
  /\ (PyPath.sep ∉ f)
  /\ f <> input_filename
  /\ exists xml_data root,
       read_text input_filename = ReadOk xml_data
       /\ well_formed xml_data root /\ convert root = Ok j.
Proof.
  destruct (accepted_or_not input_filename) as [Hyes|Hno];
    [|rewrite main_not_accepted by exact Hno; simpl; intros Hin;
      by apply elem_of_nil in Hin].
  rewrite main_accepted by exact Hyes. cbv zeta.
  destruct (accepted_extension _ Hyes)
    as (d & b & e & Hinput & Hsplit & Hd & Hb & He & Hlow).
  rewrite Hsplit. simpl fst.
  destruct (read_text input_filename) as [xml_data| |] eqn:Hread; simpl;
    [|intros Hin; by apply elem_of_nil in Hin
     |intros Hin; by apply elem_of_nil in Hin].
  destruct (xml_to_fvtt_json xml_data) as [log [j'|]] eqn:Hx; simpl in *;
    [|intros Hin; by apply elem_of_nil in Hin].
  destruct (writable (output_filename_of b)); simpl;
    [|intros Hin; by apply elem_of_nil in Hin].
  intros Hin. apply list_elem_of_singleton in Hin. injection Hin as -> ->.
  repeat split.
  - unfold output_filename_of. rewrite !elem_of_app.
    destruct output_affixes as (Hpre & Hsuf & _).
    intros [Hp|[Hp|Hp]]; [by apply Hpre | by apply Hb | by apply Hsuf].
  - intros Heq. rewrite Hinput in Heq. unfold output_filename_of in Heq.
    change (py ".json") with (PyPath.extsep :: py "json") in Heq.
    rewrite !app_assoc in Heq.
    apply split_last_unique in Heq as [_ Hjson];
      [| |exact He].
    + subst e. rewrite lower_ascii in Hlow; [discriminate Hlow|].
      repeat (apply List.Forall_cons; [vm_compute; reflexivity|]).
      apply List.Forall_nil.
    + apply output_affixes.
  - apply xml_to_fvtt_json_some in Hx as (_ & root & Hwf & Hj).
    exists xml_data, root. auto.
Qed.

End Run_properties.

(** X12 on a hidden file named [.xml] in a directory. *)
Lemma main_rejects_hidden_file_witness :
  @main sample_parser ascii_digits ascii_case sample_files (py "dir/.xml")
  = Run [NotXmlLogged] [] (Exited 1)
  /\ exit_status
       (run_end (@main sample_parser ascii_digits ascii_case sample_files
                   (py "dir/.xml"))) = 1.
Proof.
  apply (@main_rejects_other_names sample_parser ascii_digits ascii_case
           sample_files (py "dir/.xml")).
  left. exists 1%nat, (py "xml"). split; [reflexivity|].
  apply (bool_decide_unpack _). vm_compute. exact I.
Defined.

(** X13 on [sheets/hero.XML]. *)
Lemma main_converts_xml_file_witness :
  exists j,
    @convert ascii_digits sample_markup_root = Ok j
    /\ @main sample_parser ascii_digits ascii_case sample_files
         (py "sheets/hero.XML")
       = Run [WrittenLogged (py "2converted_hero.json")]
             [(py "2converted_hero.json", j)] Completed.
Proof.
  apply (@main_converts_xml_file sample_parser ascii_digits ascii_case
           sample_files (py "sheets/") (py "hero") (py "XML") sample_markup
           sample_markup_root).
  - right. reflexivity.
  - apply (bool_decide_unpack _). vm_compute. exact I.
  - apply (bool_decide_unpack _). vm_compute. exact I.
  - apply (bool_decide_unpack _). vm_compute. exact I.
  - reflexivity.
  - repeat (apply List.Forall_cons; [vm_compute; reflexivity|]).
    apply List.Forall_nil.
  - reflexivity.
  - reflexivity.
  - eexists. split; reflexivity.
  - reflexivity.
Defined.

(** X14 on a file with an unclosed tag: logged, nothing written, status
    0. *)
Lemma main_failed_conversion_witness :
  exists r,
    @main sample_parser ascii_digits ascii_case sample_files (py "broken.xml")
    = Run [ConverterLogged r; ConversionFailedLogged] [] Completed
    /\ exit_status
         (run_end (@main sample_parser ascii_digits ascii_case sample_files
                     (py "broken.xml"))) = 0.
Proof.
  apply (proj1 (proj2 (@main_endings sample_parser ascii_digits ascii_case
                         sample_files (py "broken.xml"))) unclosed_markup).
  - reflexivity.
  - reflexivity.
  - intros root (bs & Henc & Hparse).
    vm_compute in Henc. injection Henc as <-.
    vm_compute in Hparse. discriminate Hparse.
Defined.

(** X15 on [sheets/hero.XML]. *)
Lemma main_output_file_witness :
  run_written (@main sample_parser ascii_digits ascii_case sample_files
                 (py "sheets/hero.XML"))
  = [(py "2converted_hero.json", @converted ascii_digits sample_markup_root)]
  /\ (PyPath.sep ∉ py "2converted_hero.json")
  /\ py "2converted_hero.json" <> py "sheets/hero.XML".
Proof.
  destruct (@main_output_file sample_parser ascii_digits ascii_case
              sample_files (py "sheets/hero.XML") (py "2converted_hero.json")
              (@converted ascii_digits sample_markup_root))
    as (Hw & _ & _ & Hsep & Hne & _).
  - vm_compute. left.
  - auto.
Defined.

Example main_sample_runs :
  @main sample_parser ascii_digits ascii_case sample_files (py "notes.txt")
  = Run [NotXmlLogged] [] (Exited 1)
  /\ @main sample_parser ascii_digits ascii_case sample_files (py "gone.xml")
     = Run [FileNotFoundLogged (py "gone.xml")] [] (Exited 1)
  /\ @main sample_parser ascii_digits ascii_case sample_files (py "folder.xml")
     = Run [] [] Uncaught
  /\ @main sample_parser ascii_digits ascii_case sample_files (py "broken.xml")
     = Run [ConverterLogged XmlSyntaxLogged; ConversionFailedLogged] []
           Completed
  /\ @main sample_parser ascii_digits ascii_case sample_files (py "a.b/hero")
     = Run [NotXmlLogged] [] (Exited 1).
Proof. repeat split. Qed.

Example path_examples :
  map (fun p => PyPath.splitext (PyPath.basename (py p)))
    [".xml"; "a.xml"; "..xml"; "a..xml"; "dir.d/file"; "dir/a.b.XML"; "x/";
     "a."; "...a.xml"]%string
  = [(py ".xml", []); (py "a", py ".xml"); (py "..xml", []);
     (py "a.", py ".xml"); (py "file", []); (py "a.b", py ".XML");
     ([], []); (py "a", py "."); (py "...a", py ".xml")].
Proof. reflexivity. Qed.
